(** * MS3 Prep: a verification development for [ms3-prep.py]

    The script walks the current directory, and for every AsciiDoc module or
    assembly it checks for a title, adds the abstract tag where an abstract
    can be located, adds the additional-resources tag, renames a deprecated
    attribute and writes the lines back.  This file embeds the three line
    transformers and the directory walk of the script in Rocq and proves the
    properties stated for them.

    Conventions of the embedding:
    - a Python [str] is a list of Unicode code points ([N]);
    - a Python list of lines is a [list str], indexed with stdpp's lookup;
    - the module-level list of files missing an abstract is threaded through
      [test_abstract] as an explicit argument and result;
    - the two tag globals are the fields of a [config] record;
    - a [while] loop is run with fuel, and an index out of range is the
      error [IndexError]; every theorem about a function proves that it
      returns ([Ok]). *)

From Stdlib Require Import NArith String Ascii.
From stdpp Require Import base list.

Local Open Scope N_scope.
Local Open Scope nat_scope.
Local Open Scope list_scope.

(** ** Python strings *)

Module Str.

(** A [str] is a sequence of code points. *)
Definition str : Type := list N.

(** A literal of the source, written with ASCII characters only. *)
Definition py (s : string) : str := N_of_ascii <$> list_ascii_of_string s.
Arguments py s%_string.

(** The escapes the source uses: a newline and a double quote. *)
Definition LF : str := [10%N].
Definition DQUOTE : str := [34%N].

(** [s == t] *)
Definition eqb (s t : str) : bool := bool_decide (s = t).

(** [s.startswith(p)] *)
Fixpoint startswith (s p : str) {struct p} : bool :=
  match p, s with
  | [], _ => true
  | _ :: _, [] => false
  | b :: p', a :: s' => (a =? b)%N && startswith s' p'
  end.

(** [s.startswith((p1, ..., pn))] *)
Definition startswith_any (s : str) (ps : list str) : bool :=
  existsb (startswith s) ps.

(** [s.endswith(p)] *)
Definition endswith (s p : str) : bool := startswith (reverse s) (reverse p).

(** [sub in s], also [s.__contains__(sub)] *)
Fixpoint contains (s sub : str) : bool :=
  startswith s sub ||
  match s with
  | [] => false
  | _ :: s' => contains s' sub
  end.

(** The code points Python's [str.isspace] accepts, which are the ones
    [str.strip()] removes. *)
Definition isspace (c : N) : bool :=
  ((9 <=? c) && (c <=? 13) || (28 <=? c) && (c <=? 32)
   || (c =? 133) || (c =? 160) || (c =? 5760)
   || (8192 <=? c) && (c <=? 8202)
   || (c =? 8232) || (c =? 8233) || (c =? 8239) || (c =? 8287)
   || (c =? 12288))%N.

(** [s.lstrip()], [s.rstrip()], [s.strip()] *)
Fixpoint lstrip (s : str) : str :=
  match s with
  | [] => []
  | c :: s' => if isspace c then lstrip s' else s
  end.

Definition rstrip (s : str) : str := reverse (lstrip (reverse s)).

Definition strip (s : str) : str := rstrip (lstrip s).

(** [s.replace(old, new)] for a non-empty [old]: the occurrences of [old]
    are found from the left and do not overlap.  [skip] counts the
    characters of the current occurrence still to be passed over. *)
Fixpoint replace_from (old new : str) (skip : nat) (s : str) : str :=
  match s with
  | [] => []
  | c :: s' =>
      match skip with
      | S k => replace_from old new k s'
      | O =>
          if startswith s old
          then new ++ replace_from old new (length old - 1) s'
          else c :: replace_from old new 0 s'
      end
  end.

(** [s.replace(old, new)]; an empty [old] matches before every character
    and at the end. *)
Definition replace (s old new : str) : str :=
  match old with
  | [] => new ++ (s ≫= λ c, c :: new)
  | _ :: _ => replace_from old new 0 s
  end.

(** [sep.join(pieces)] *)
Fixpoint join (sep : str) (pieces : list str) : str :=
  match pieces with
  | [] => []
  | [p] => p
  | p :: ps => p ++ sep ++ join sep ps
  end.

End Str.
Import Str.

(** ** Results of fallible code *)

Inductive result (A : Type) : Type :=
| Ok (a : A)
| IndexError
| OutOfFuel.
Arguments Ok {A} a.
Arguments IndexError {A}.
Arguments OutOfFuel {A}.

#[global] Instance result_ret : MRet result := λ A a, Ok a.

#[global] Instance result_bind : MBind result := λ A B k r,
  match r with
  | Ok a => k a
  | IndexError => IndexError
  | OutOfFuel => OutOfFuel
  end.

(** [lines[i]] *)
Definition getitem {A : Type} (l : list A) (i : nat) : result A :=
  match l !! i with
  | Some a => Ok a
  | None => IndexError
  end.

(** [while cond: body], with [fuel] bounding the number of iterations. *)
Fixpoint while {S : Type} (fuel : nat) (cond : S → bool) (body : S → result S)
    (s : S) : result S :=
  if cond s then
    match fuel with
    | O => OutOfFuel
    | S fuel' => s' ← body s; while fuel' cond body s'
    end
  else Ok s.

(** ** Configuration: the tag globals *)

Record config : Type := {
  __abstract_tag__ : str;
  __resource_tag__ : str
}.

(** The values at module level. *)
Definition default_config : config := {|
  __abstract_tag__ := py "[role=" ++ DQUOTE ++ py "_abstract" ++ DQUOTE ++ py "]";
  __resource_tag__ :=
    py "[role=" ++ DQUOTE ++ py "_additional-resources" ++ DQUOTE ++ py "]"
|}.

(** The values after [--alternate]. *)
Definition alternate_config : config := {|
  __abstract_tag__ :=
    py "[role=" ++ DQUOTE ++ py "system__abstract" ++ DQUOTE ++ py "]";
  __resource_tag__ :=
    py "[role=" ++ DQUOTE ++ py "system__additional-resources" ++ DQUOTE ++ py "]"
|}.

(** ** The abstract tag: [test_abstract] *)

(** The prefixes of the lines that come before the abstract. *)
Definition preamble_prefixes : list str :=
  [py "#"; py "/"; py "["; py "="; py "ifdef"; py "ifndef"; py "assembly_";
   py "toc"; py "include"; py ":"].

(** The prefixes of a first line that cannot open an abstract. *)
Definition unsuitable_prefixes : list str :=
  [py "|"; py "*"; py "include"; py "."].

(** The condition of the first [if] of the loop: a line to ignore. *)
Definition is_preamble (line : str) : bool :=
  eqb (strip line) [] || startswith_any (strip line) preamble_prefixes.

(** The prefix test of the second [if]. *)
Definition is_unsuitable (line : str) : bool :=
  startswith_any (strip line) unsuitable_prefixes.

(** The variables of [test_abstract], with the module-level list
    [__files_missing_abstracts__]. *)
Record abstract_state : Type := {
  line_no : nat;
  processed_lines : list str;
  has_abstract : bool;
  abstract_search_complete : bool;
  __files_missing_abstracts__ : list str
}.

(** [processed_lines.append(line)] *)
Definition append_line (line : str) (st : abstract_state) : abstract_state := {|
  line_no := line_no st;
  processed_lines := processed_lines st ++ [line];
  has_abstract := has_abstract st;
  abstract_search_complete := abstract_search_complete st;
  __files_missing_abstracts__ := __files_missing_abstracts__ st
|}.

(** [line_no += 1] *)
Definition next_line (st : abstract_state) : abstract_state := {|
  line_no := S (line_no st);
  processed_lines := processed_lines st;
  has_abstract := has_abstract st;
  abstract_search_complete := abstract_search_complete st;
  __files_missing_abstracts__ := __files_missing_abstracts__ st
|}.

(** [__files_missing_abstracts__.append(file_name)] and
    [abstract_search_complete = True] *)
Definition record_missing (file_name : str) (st : abstract_state)
    : abstract_state := {|
  line_no := line_no st;
  processed_lines := processed_lines st;
  has_abstract := has_abstract st;
  abstract_search_complete := true;
  __files_missing_abstracts__ := __files_missing_abstracts__ st ++ [file_name]
|}.

(** [has_abstract = True] and [abstract_search_complete = True] *)
Definition declare_abstract (st : abstract_state) : abstract_state := {|
  line_no := line_no st;
  processed_lines := processed_lines st;
  has_abstract := true;
  abstract_search_complete := true;
  __files_missing_abstracts__ := __files_missing_abstracts__ st
|}.

(** The [if]/[elif] on a line that is not ignored.  The two flags are set
    inside the test on [noop], as in the source. *)
Definition abstract_decide (cfg : config) (noop : bool) (file_name line : str)
    (st : abstract_state) : abstract_state :=
  if negb (abstract_search_complete st) && is_unsuitable line then
    record_missing file_name st
  else if negb (abstract_search_complete st) then
    if negb (has_abstract st) && negb noop then
      declare_abstract (append_line (__abstract_tag__ cfg ++ LF) st)
    else st
  else st.

(** The body of the [while] loop. *)
Definition abstract_body (cfg : config) (lines : list str) (noop : bool)
    (file_name : str) (st : abstract_state) : result abstract_state :=
  line ← getitem lines (line_no st);
  if is_preamble line then
    mret (next_line (append_line line st))
  else
    mret (next_line (append_line line (abstract_decide cfg noop file_name line st))).

(** [test_abstract(lines, noop, file_name)].  The last argument is the value
    of [__files_missing_abstracts__] at the call; the result is the returned
    list with the value of [__files_missing_abstracts__] at the return. *)
Definition test_abstract (cfg : config) (lines : list str) (noop : bool)
    (file_name : str) (missing : list str) : result (list str * list str) :=
  if existsb (λ line, contains line (__abstract_tag__ cfg)) lines then
    mret (lines, missing)
  else
    let line_count := length lines in
    st ← while line_count (λ st, bool_decide (line_no st < line_count))
          (abstract_body cfg lines noop file_name)
          {| line_no := 0; processed_lines := []; has_abstract := false;
             abstract_search_complete := false;
             __files_missing_abstracts__ := missing |};
    mret (processed_lines st, __files_missing_abstracts__ st).

(** ** The additional-resources tag: [test_additional_resources] *)

Record resources_state : Type := {
  r_line_no : nat;
  r_processed_lines : list str
}.

(** The condition of the outer [if]: a heading of the section, in one of its
    two spellings.  Only the first spelling is tested on the stripped line. *)
Definition is_resources_heading (line : str) : bool :=
  startswith (strip line) (py ".Additional resources")
  || startswith line (py "== Additional resources").

Definition resources_body (cfg : config) (lines : list str) (noop : bool)
    (st : resources_state) : result resources_state :=
  line ← getitem lines (r_line_no st);
  processed ←
    (if is_resources_heading line then
       if bool_decide (1 < r_line_no st) then
         previous ← getitem lines (r_line_no st - 1);
         if negb (eqb (strip previous) (__resource_tag__ cfg)) then
           if negb noop then
             mret (r_processed_lines st ++ [__resource_tag__ cfg ++ LF])
           else mret (r_processed_lines st)
         else mret (r_processed_lines st)
       else mret (r_processed_lines st)
     else mret (r_processed_lines st));
  mret {| r_line_no := S (r_line_no st);
          r_processed_lines := processed ++ [line] |}.

(** [test_additional_resources(lines, noop)] *)
Definition test_additional_resources (cfg : config) (lines : list str)
    (noop : bool) : result (list str) :=
  let line_count := length lines in
  st ← while line_count (λ st, bool_decide (r_line_no st < line_count))
        (resources_body cfg lines noop)
        {| r_line_no := 0; r_processed_lines := [] |};
  mret (r_processed_lines st).

(** ** The deprecated attribute: [test_syntax_updates] *)

Definition old_attribute : str := py ":system-module-type:".
Definition new_attribute : str := py ":_module-type:".

(** The loop assigns to [lines[line_no]], so the list is part of the state. *)
Record syntax_state : Type := {
  s_lines : list str;
  s_line_no : nat;
  s_processed_lines : list str
}.

Definition syntax_body (noop : bool) (st : syntax_state) : result syntax_state :=
  line ← getitem (s_lines st) (s_line_no st);
  lines' ←
    (if contains (strip line) old_attribute then
       if negb noop then
         mret (<[s_line_no st := replace line old_attribute new_attribute]>
                 (s_lines st))
       else mret (s_lines st)
     else mret (s_lines st));
  line' ← getitem lines' (s_line_no st);
  mret {| s_lines := lines';
          s_line_no := S (s_line_no st);
          s_processed_lines := s_processed_lines st ++ [line'] |}.

(** [test_syntax_updates(lines, noop)] *)
Definition test_syntax_updates (lines : list str) (noop : bool)
    : result (list str) :=
  let line_count := length lines in
  st ← while line_count (λ st, bool_decide (s_line_no st < line_count))
        (syntax_body noop)
        {| s_lines := lines; s_line_no := 0; s_processed_lines := [] |};
  mret (s_processed_lines st).

(** ** The directory walk: [process] *)

(** A directory of the tree under the current directory: its files, each
    with the lines [readlines()] returns for it, and its sub-directories,
    both in the order the operating system lists them.  Symbolic links and
    I/O failures are outside the model. *)
#[warnings="-register-all"]
Inductive directory : Type :=
| Directory (files : list (str * list str)) (subdirs : list (str * directory)).

(** [os.walk(top)], top-down: one triple [(dir_name, sub_dir_list, file_list)]
    for the directory, then the triples of each sub-directory, whose path is
    [os.path.join(top, name)].  A file of [file_list] comes with its lines. *)
Fixpoint os_walk (top : str) (d : directory)
    : list (str * list str * list (str * list str)) :=
  match d with
  | Directory files subdirs =>
      (top, subdirs.*1, files) ::
      (fix walk_all (ds : list (str * directory)) :=
         match ds with
         | [] => []
         | (name, d') :: ds' => os_walk (top ++ py "/" ++ name) d' ++ walk_all ds'
         end) subdirs
  end.

(** [for x in xs: body], threading the variables the body assigns. *)
Fixpoint for_each {A S : Type} (xs : list A) (body : A → S → result S) (s : S)
    : result S :=
  match xs with
  | [] => mret s
  | x :: xs' => s' ← body x s; for_each xs' body s'
  end.

(** What a run leaves behind: the files written, in order, with the lines
    written to each, and the two lists of the final report. *)
Record report : Type := {
  written : list (str * list str);
  files_missing_titles : list str;
  files_missing_abstracts : list str
}.

(** The condition on [file_name] in the inner loop. *)
Definition is_selected (file_name : str) : bool :=
  endswith file_name (py "adoc") && negb (eqb file_name (py "master.adoc")).

(** [any(line.strip().startswith('= ') for line in lines)] *)
Definition has_title (lines : list str) : bool :=
  existsb (λ line, startswith (strip line) (py "= ")) lines.

(** The three transformers in the order [process] calls them. *)
Definition transform (cfg : config) (lines : list str) (noop : bool)
    (file_name : str) (missing : list str) : result (list str * list str) :=
  '(lines1, missing') ← test_abstract cfg lines noop file_name missing;
  lines2 ← test_additional_resources cfg lines1 noop;
  lines3 ← test_syntax_updates lines2 noop;
  mret (lines3, missing').

Section Process.

(** [os.path.abspath], which depends on the working directory. *)
Variable abspath : str → str.
Variable cfg : config.
Variable noop : bool.

(** The body of the inner [for] loop. *)
Definition process_file (dir_name : str) (file : str * list str)
    (rp : report) : result report :=
  let '(file_name, contents) := file in
  if is_selected file_name then
    let path := abspath dir_name ++ py "/" ++ file_name in
    let lines := contents in
    let titles :=
      if negb (has_title lines) then files_missing_titles rp ++ [path]
      else files_missing_titles rp in
    '(lines', missing) ←
      transform cfg lines noop path (files_missing_abstracts rp);
    mret {| written := written rp ++ [(path, lines')];
            files_missing_titles := titles;
            files_missing_abstracts := missing |}
  else mret rp.

(** The body of the outer [for] loop. *)
Definition process_directory
    (entry : str * list str * list (str * list str)) (rp : report)
    : result report :=
  let '(dir_name, sub_dir_list, file_list) := entry in
  if startswith dir_name (py "./.") then mret rp
  else for_each file_list (process_file dir_name) rp.

(** [process(noop)] on the tree [root] of the current directory.  The
    last argument is the value of [__files_missing_abstracts__] at the
    call. *)
Definition process (root : directory) (missing : list str) : result report :=
  for_each (os_walk (py ".") root) process_directory
    {| written := []; files_missing_titles := [];
       files_missing_abstracts := missing |}.

End Process.

(** ** Definitions used in the statements *)

(** One iteration of the loop of [test_abstract] on [line], the line at
    [line_no]: the body without the lookup. *)
Definition abstract_step (cfg : config) (noop : bool) (file_name : str)
    (st : abstract_state) (line : str) : abstract_state :=
  if is_preamble line then next_line (append_line line st)
  else next_line (append_line line (abstract_decide cfg noop file_name line st)).

(** The test at the top of [test_abstract]. *)
Definition has_abstract_tag (cfg : config) (lines : list str) : bool :=
  existsb (λ line, contains line (__abstract_tag__ cfg)) lines.

(** The three nested tests of [test_additional_resources] on [line], the
    line at index [i]. *)
Definition needs_resource_tag (cfg : config) (lines : list str) (i : nat)
    (line : str) : bool :=
  is_resources_heading line && bool_decide (1 < i) &&
  match lines !! (i - 1) with
  | Some previous => negb (eqb (strip previous) (__resource_tag__ cfg))
  | None => false
  end.

(** What one iteration of [test_additional_resources] appends for [line],
    the line at index [i]. *)
Definition resources_chunk (cfg : config) (noop : bool) (lines : list str)
    (i : nat) (line : str) : list str :=
  if needs_resource_tag cfg lines i line && negb noop
  then [__resource_tag__ cfg ++ LF; line]
  else [line].

(** What one iteration of [test_syntax_updates] leaves in [lines[line_no]]
    and appends. *)
Definition syntax_line (noop : bool) (line : str) : str :=
  if contains (strip line) old_attribute && negb noop
  then replace line old_attribute new_attribute
  else line.

(** In the words of the specification: [line'] is [line] with every
    occurrence of [old] replaced by [new] and the rest kept.  The line is cut
    at occurrences of [old] into pieces that have no occurrence of [old], and
    [line'] is the same pieces with [new] between them. *)
Definition replaced_every (old new line line' : str) : Prop :=
  ∃ pieces : list str,
    line = join old pieces ∧ line' = join new pieces ∧
    Forall (λ piece, contains piece old = false) pieces.

(** A line that is not ignored and cannot open an abstract. *)
Definition is_unsuitable_content (line : str) : bool :=
  negb (is_preamble line) && is_unsuitable line.

(** The output of [test_additional_resources] for the lines from index 2
    on, where only the line before counts: [previous] is the line before the
    first of [lines]. *)
Fixpoint resources_after (cfg : config) (previous : str) (lines : list str)
    : list str :=
  match lines with
  | [] => []
  | line :: rest =>
      (if is_resources_heading line
          && negb (eqb (strip previous) (__resource_tag__ cfg))
       then [__resource_tag__ cfg ++ LF; line]
       else [line]) ++ resources_after cfg line rest
  end.

(** The files the inner loop of [process] opens in the directory [dir_name],
    in order, each with the path of its directory. *)
Definition selected_files (dir_name : str) (file_list : list (str * list str))
    : list (str * (str * list str)) :=
  file ← file_list; if is_selected file.1 then [(dir_name, file)] else [].

(** The files [process] opens along a walk, in order: those of the
    directories that the test on [dir_name] does not pass over. *)
Definition visited_files (walk : list (str * list str * list (str * list str)))
    : list (str * (str * list str)) :=
  entry ← walk;
  if startswith entry.1.1 (py "./.") then [] else selected_files entry.1.1 entry.2.

(** Whether a call of [test_abstract] on [lines] records the file.  A normal
    run looks at the first line that is not ignored, a dry run at every line
    that is not ignored. *)
Definition lacks_abstract (cfg : config) (noop : bool) (lines : list str) : bool :=
  negb (has_abstract_tag cfg lines) &&
  if noop then existsb is_unsuitable_content lines
  else
    match list_find (λ line, is_preamble line = false) lines with
    | Some (_, line) => is_unsuitable line
    | None => false
    end.

(** ** The command line *)

(** The module-level variables the command line sets: [__no_op__] and the
    two tags. *)
Record settings : Type := {
  __no_op__ : bool;
  tags : config
}.

(** The values at module level. *)
Definition default_settings : settings :=
  {| __no_op__ := false; tags := default_config |}.

(** The body of [for arg in sys.argv[1:]]: two independent [if]s. *)
Definition read_argument (st : settings) (arg : str) : settings :=
  let st1 :=
    if eqb arg (py "--no-op") then {| __no_op__ := true; tags := tags st |}
    else st in
  if eqb arg (py "--alternate")
  then {| __no_op__ := __no_op__ st1; tags := alternate_config |}
  else st1.

(** The loop over [sys.argv[1:]] at the top of the main block. *)
Definition read_arguments (argv : list str) : settings :=
  foldl read_argument default_settings (drop 1 argv).

(** * Facts about the string operations *)

Module StrFacts.

Lemma eqb_true (s t : str) : eqb s t = true ↔ s = t.
Proof. unfold eqb. apply bool_decide_eq_true. Qed.

Lemma eqb_false (s t : str) : eqb s t = false ↔ s ≠ t.
Proof. unfold eqb. apply bool_decide_eq_false. Qed.

(** [startswith] decides the prefix relation. *)
Lemma startswith_true (s p : str) : startswith s p = true ↔ ∃ r, s = p ++ r.
Proof.
  revert s. induction p as [|b p IH]; intros s; simpl.
  - split; [eauto|done].
  - destruct s as [|a s].
    + split; [done|]. intros [r Hr]. discriminate Hr.
    + rewrite andb_true_iff, N.eqb_eq, IH. split.
      * intros [-> [r ->]]. by exists r.
      * intros [r Hr]. injection Hr as -> ->. eauto.
Qed.

Lemma startswith_app (p r : str) : startswith (p ++ r) p = true.
Proof. apply startswith_true. eauto. Qed.

Lemma startswith_weaken (s p r : str) :
  startswith s p = true → startswith (s ++ r) p = true.
Proof.
  rewrite !startswith_true. intros [q ->]. exists (q ++ r).
  by rewrite (assoc_L (++)).
Qed.

(** [endswith] decides the suffix relation. *)
Lemma endswith_true (s p : str) : endswith s p = true ↔ ∃ r, s = r ++ p.
Proof.
  unfold endswith. rewrite startswith_true. split.
  - intros [r Hr]. exists (reverse r).
    apply (inj reverse). by rewrite Hr, reverse_app, reverse_involutive.
  - intros [r ->]. exists (reverse r). by rewrite reverse_app.
Qed.

(** [contains] decides the occurrence of a substring. *)
Lemma contains_true (s sub : str) :
  contains s sub = true ↔ ∃ a b, s = a ++ sub ++ b.
Proof.
  induction s as [|c s IH]; simpl.
  - rewrite orb_false_r, startswith_true. split.
    + intros [r Hr]. by exists [], r.
    + intros (a & b & Hab). destruct a; [|discriminate Hab]. eauto.
  - rewrite orb_true_iff, startswith_true, IH. split.
    + intros [[r Hr]|(a & b & ->)]; [by exists [], r|by exists (c :: a), b].
    + intros (a & b & Hab). destruct a as [|c' a]; [left; eauto|].
      right. injection Hab as -> ->. eauto.
Qed.

Lemma contains_false_cons (c : N) (s sub : str) :
  contains (c :: s) sub = false ↔
  startswith (c :: s) sub = false ∧ contains s sub = false.
Proof. simpl. apply orb_false_iff. Qed.

(** The spaces [lstrip] drops stop at the first other character. *)
Lemma lstrip_app_nonspace (a : str) (c : N) (r : str) :
  isspace c = false → lstrip (a ++ c :: r) = lstrip a ++ c :: r.
Proof.
  intros Hc. induction a as [|x a IH]; simpl.
  - by rewrite Hc.
  - by destruct (isspace x).
Qed.

Lemma rstrip_app_nonspace (a : str) (c : N) (r : str) :
  isspace c = false → rstrip (a ++ [c] ++ r) = a ++ [c] ++ rstrip r.
Proof.
  intros Hc. unfold rstrip.
  rewrite !reverse_app, reverse_singleton, <-(assoc_L (++)). simpl.
  rewrite lstrip_app_nonspace by done.
  by rewrite reverse_app, reverse_cons, reverse_involutive, <-(assoc_L (++)).
Qed.

(** A stripped string is a segment of the string. *)
Lemma lstrip_suffix (s : str) : ∃ a, s = a ++ lstrip s.
Proof.
  induction s as [|c s [a IH]]; simpl; [by exists []|].
  destruct (isspace c); [|by exists []].
  exists (c :: a). simpl. by f_equal.
Qed.

Lemma rstrip_prefix (s : str) : ∃ b, s = rstrip s ++ b.
Proof.
  unfold rstrip. destruct (lstrip_suffix (reverse s)) as [a Ha].
  exists (reverse a). apply (inj reverse).
  by rewrite reverse_app, !reverse_involutive.
Qed.

Lemma strip_segment (s : str) : ∃ a b, s = a ++ strip s ++ b.
Proof.
  unfold strip. destruct (lstrip_suffix s) as [a Ha].
  destruct (rstrip_prefix (lstrip s)) as [b Hb].
  exists a, b. by rewrite <-Hb.
Qed.

(** Stripping neither hides nor creates an occurrence of a substring that
    begins and ends with a character other than a space. *)
Lemma contains_strip (s : str) (c d : N) (m : str) :
  isspace c = false → isspace d = false →
  contains (strip s) (c :: m ++ [d]) = contains s (c :: m ++ [d]).
Proof.
  intros Hc Hd. apply eq_true_iff_eq. rewrite !contains_true. split.
  - intros (a & b & Hab). destruct (strip_segment s) as (a' & b' & Hs).
    exists (a' ++ a), (b ++ b'). rewrite Hs, Hab.
    by rewrite <-!(assoc_L (++)).
  - intros (a & b & ->). unfold strip.
    replace (a ++ (c :: m ++ [d]) ++ b) with (a ++ c :: (m ++ d :: b))
      by (simpl; by rewrite <-(assoc_L (++))).
    rewrite lstrip_app_nonspace by done.
    replace (lstrip a ++ c :: m ++ d :: b)
      with ((lstrip a ++ c :: m) ++ [d] ++ b)
      by (by rewrite <-(assoc_L (++))).
    rewrite rstrip_app_nonspace by done.
    exists (lstrip a), (rstrip b).
    rewrite <-!(assoc_L (++)). simpl. by rewrite <-!(assoc_L (++)).
Qed.

End StrFacts.

(** * Loops that count from [0] to a bound *)

Section Loops.

Context {S : Type}.
Variable n : nat.
Variable cond : S → bool.
Variable body : S → result S.
(** [inv k s]: [s] is the state after [k] iterations. *)
Variable inv : nat → S → Prop.
Hypothesis cond_inv : ∀ k s, inv k s → cond s = bool_decide (k < n).
Hypothesis body_inv : ∀ k s, inv k s → k < n → ∃ s', body s = Ok s' ∧ inv (k + 1) s'.

(** From the state after [k] iterations the loop ends within [n - k]
    more, in a state that satisfies the invariant at [n]. *)
Lemma while_count (fuel k : nat) (s : S) :
  inv k s → k ≤ n → n - k ≤ fuel →
  ∃ s', while fuel cond body s = Ok s' ∧ inv n s'.
Proof.
  revert k s. induction fuel as [|fuel IH]; intros k s Hinv Hk Hfuel.
  - assert (k = n) as -> by lia. exists s. split; [|done].
    simpl. rewrite (cond_inv n s Hinv). by rewrite bool_decide_eq_false_2 by lia.
  - simpl. rewrite (cond_inv k s Hinv). case_bool_decide as Hlt.
    + destruct (body_inv k s Hinv Hlt) as (s' & -> & Hinv').
      apply (IH (k + 1) s' Hinv'); lia.
    + assert (k = n) as -> by lia. by exists s.
Qed.

End Loops.

(** * [test_abstract]: the loop as a fold over the lines *)

Section Abstract.

Variable cfg : config.
Variable noop : bool.
Variable file_name : str.

Local Abbreviation step := (abstract_step cfg noop file_name).

Lemma abstract_body_step (lines : list str) (st : abstract_state) (line : str) :
  lines !! line_no st = Some line →
  abstract_body cfg lines noop file_name st = Ok (step st line).
Proof.
  intros Hline. unfold abstract_body, getitem, abstract_step. rewrite Hline.
  simpl. by destruct (is_preamble line).
Qed.

Lemma line_no_abstract_step (st : abstract_state) (line : str) :
  line_no (step st line) = line_no st + 1.
Proof.
  unfold abstract_step, abstract_decide.
  repeat case_match; simpl; lia.
Qed.

(** The loop of [test_abstract] ends, and folds [abstract_step] over the
    lines. *)
Lemma abstract_loop (lines : list str) (st : abstract_state) :
  line_no st = 0 →
  while (length lines) (λ st, bool_decide (line_no st < length lines))
    (abstract_body cfg lines noop file_name) st
  = Ok (foldl step st lines).
Proof.
  intros Hst.
  set (inv := λ k st', line_no st' = k ∧ st' = foldl step st (take k lines)).
  assert (∀ k s, inv k s → k < length lines →
            ∃ s', abstract_body cfg lines noop file_name s = Ok s' ∧ inv (k + 1) s')
    as Hbody.
  { intros k s [Hk ->] Hlt.
    destruct (lookup_lt_is_Some_2 lines k Hlt) as [line Hline].
    exists (step (foldl step st (take k lines)) line).
    split; [apply abstract_body_step; by rewrite Hk|].
    split; [by rewrite line_no_abstract_step, Hk|].
    rewrite Nat.add_1_r. erewrite take_S_r by done. by rewrite foldl_app. }
  assert (∀ k s, inv k s →
            bool_decide (line_no s < length lines) = bool_decide (k < length lines))
    as Hcond by (by intros k s [<- _]).
  destruct (while_count (length lines) _ _ inv Hcond Hbody (length lines) 0 st)
    as (s' & -> & _ & ->); [done | lia | lia |].
  by rewrite firstn_all.
Qed.

(** [test_abstract] always returns. *)
Lemma test_abstract_fold (lines missing : list str) :
  test_abstract cfg lines noop file_name missing =
  Ok (if existsb (λ line, contains line (__abstract_tag__ cfg)) lines
      then (lines, missing)
      else
        let st := foldl step
                    {| line_no := 0; processed_lines := []; has_abstract := false;
                       abstract_search_complete := false;
                       __files_missing_abstracts__ := missing |} lines in
        (processed_lines st, __files_missing_abstracts__ st)).
Proof.
  unfold test_abstract. case_match; [done|].
  by rewrite abstract_loop.
Qed.

(** Lines to ignore are copied and change nothing else. *)
Lemma abstract_run_preamble (pre : list str) :
  Forall (λ line, is_preamble line = true) pre →
  ∀ n p h c m,
    foldl step
      {| line_no := n; processed_lines := p; has_abstract := h;
         abstract_search_complete := c; __files_missing_abstracts__ := m |} pre
    = {| line_no := n + length pre; processed_lines := p ++ pre;
         has_abstract := h; abstract_search_complete := c;
         __files_missing_abstracts__ := m |}.
Proof.
  induction 1 as [|line pre Hline _ IH]; intros n p h c m; simpl.
  - by rewrite Nat.add_0_r, app_nil_r.
  - unfold abstract_step at 2. rewrite Hline. unfold next_line, append_line.
    simpl. rewrite IH. f_equal; [lia|]. by rewrite <-(assoc_L (++)).
Qed.

(** Once the search is complete every line is copied and nothing else
    changes. *)
Lemma abstract_run_complete (rest : list str) :
  ∀ n p h m,
    foldl step
      {| line_no := n; processed_lines := p; has_abstract := h;
         abstract_search_complete := true; __files_missing_abstracts__ := m |}
      rest
    = {| line_no := n + length rest; processed_lines := p ++ rest;
         has_abstract := h; abstract_search_complete := true;
         __files_missing_abstracts__ := m |}.
Proof.
  induction rest as [|line rest IH]; intros n p h m; simpl.
  - by rewrite Nat.add_0_r, app_nil_r.
  - unfold abstract_step at 2, abstract_decide, next_line, append_line. simpl.
    destruct (is_preamble line); simpl; rewrite IH;
      (f_equal; [lia|by rewrite <-(assoc_L (++))]).
Qed.

(** The first line that is not ignored, when it cannot open an abstract:
    the file is recorded and the search is complete. *)
Lemma abstract_step_unsuitable (line : str) :
  is_preamble line = false → is_unsuitable line = true →
  ∀ n p h m,
    step
      {| line_no := n; processed_lines := p; has_abstract := h;
         abstract_search_complete := false; __files_missing_abstracts__ := m |}
      line
    = {| line_no := S n; processed_lines := p ++ [line]; has_abstract := h;
         abstract_search_complete := true;
         __files_missing_abstracts__ := m ++ [file_name] |}.
Proof.
  intros Hpre Hbad n p h m. unfold abstract_step, abstract_decide.
  by rewrite Hpre, Hbad.
Qed.

End Abstract.

(** The first line that is not ignored, when it can open an abstract and the
    run is not a dry run: the tag goes before it and the search is complete. *)
Lemma abstract_step_prose (cfg : config) (file_name line : str) :
  is_preamble line = false → is_unsuitable line = false →
  ∀ n p m,
    abstract_step cfg false file_name
      {| line_no := n; processed_lines := p; has_abstract := false;
         abstract_search_complete := false; __files_missing_abstracts__ := m |}
      line
    = {| line_no := S n; processed_lines := p ++ [__abstract_tag__ cfg ++ LF; line];
         has_abstract := true; abstract_search_complete := true;
         __files_missing_abstracts__ := m |}.
Proof.
  intros Hpre Hbad n p m. unfold abstract_step, abstract_decide.
  rewrite Hpre, Hbad. unfold next_line, append_line, declare_abstract. simpl.
  by rewrite <-(assoc_L (++)).
Qed.

(** In a dry run every line is copied, whatever the flags are. *)
Lemma abstract_run_noop (cfg : config) (file_name : str) (lines : list str) :
  ∀ st,
    processed_lines (foldl (abstract_step cfg true file_name) st lines)
    = processed_lines st ++ lines.
Proof.
  induction lines as [|line lines IH]; intros st; simpl.
  - by rewrite app_nil_r.
  - rewrite IH. unfold abstract_step, abstract_decide.
    rewrite andb_false_r.
    repeat case_match; simpl; by rewrite <-(assoc_L (++)).
Qed.

(** A document is all lines to ignore, or has a first line that is not. *)
Lemma first_content_line (lines : list str) :
  forallb is_preamble lines = true ∨
  ∃ k line, forallb is_preamble (take k lines) = true ∧
            lines !! k = Some line ∧ is_preamble line = false.
Proof.
  induction lines as [|l lines IH]; simpl; [by left|].
  destruct (is_preamble l) eqn:Hl; simpl.
  - destruct IH as [IH|(k & line & Hk & Hline & Hnot)]; [by left|].
    right. exists (S k), line. simpl. by rewrite Hl.
  - right. by exists 0, l.
Qed.

Section AbstractOutcomes.

Variable cfg : config.
Variable file_name : str.

Lemma test_abstract_tagged (lines missing : list str) (noop : bool) :
  has_abstract_tag cfg lines = true →
  test_abstract cfg lines noop file_name missing = Ok (lines, missing).
Proof.
  intros Htag. rewrite test_abstract_fold. fold (has_abstract_tag cfg lines).
  by rewrite Htag.
Qed.

Lemma test_abstract_all_preamble (lines missing : list str) (noop : bool) :
  has_abstract_tag cfg lines = false →
  forallb is_preamble lines = true →
  test_abstract cfg lines noop file_name missing = Ok (lines, missing).
Proof.
  intros Htag Hpre. rewrite test_abstract_fold. fold (has_abstract_tag cfg lines).
  rewrite Htag. cbv zeta.
  rewrite abstract_run_preamble; [done|].
  apply Forall_forall. intros l Hl%list_elem_of_In.
  by apply (proj1 (forallb_forall _ _) Hpre).
Qed.

(** A document cut at its first line that is not ignored. *)
Lemma cut_at (lines : list str) (k : nat) (line : str) :
  lines !! k = Some line → lines = take k lines ++ line :: drop (S k) lines.
Proof. intros Hk. by rewrite <-(drop_S _ _ _ Hk), take_drop. Qed.

Lemma preamble_Forall (lines : list str) :
  forallb is_preamble lines = true → Forall (λ l, is_preamble l = true) lines.
Proof.
  intros Hpre. apply Forall_forall. intros l Hl%list_elem_of_In.
  by apply (proj1 (forallb_forall _ _) Hpre).
Qed.

Lemma test_abstract_unsuitable (lines missing : list str) (noop : bool)
    (k : nat) (line : str) :
  has_abstract_tag cfg lines = false →
  forallb is_preamble (take k lines) = true →
  lines !! k = Some line →
  is_preamble line = false → is_unsuitable line = true →
  test_abstract cfg lines noop file_name missing
  = Ok (lines, missing ++ [file_name]).
Proof.
  intros Htag Hpre Hk Hline Hbad. rewrite test_abstract_fold.
  fold (has_abstract_tag cfg lines). rewrite Htag. cbv zeta.
  rewrite (cut_at lines k line Hk) at 1 2.
  rewrite !foldl_app, abstract_run_preamble by by apply preamble_Forall.
  simpl. rewrite abstract_step_unsuitable by done.
  rewrite abstract_run_complete. simpl.
  rewrite <-(assoc_L (++)). simpl. by rewrite <-(cut_at lines k line Hk).
Qed.

Lemma test_abstract_prose (lines missing : list str) (k : nat) (line : str) :
  has_abstract_tag cfg lines = false →
  forallb is_preamble (take k lines) = true →
  lines !! k = Some line →
  is_preamble line = false → is_unsuitable line = false →
  test_abstract cfg lines false file_name missing
  = Ok (take k lines ++ (__abstract_tag__ cfg ++ LF) :: drop k lines, missing).
Proof.
  intros Htag Hpre Hk Hline Hbad. rewrite test_abstract_fold.
  fold (has_abstract_tag cfg lines). rewrite Htag. cbv zeta.
  rewrite (cut_at lines k line Hk) at 1 2.
  rewrite !foldl_app, abstract_run_preamble by by apply preamble_Forall.
  simpl. rewrite abstract_step_prose by done.
  rewrite abstract_run_complete. simpl.
  rewrite (drop_S _ _ _ Hk). by rewrite <-(assoc_L (++)).
Qed.

(** A dry run of [test_abstract] returns the lines it was given. *)
Lemma test_abstract_noop_lines (lines missing : list str) :
  ∃ missing', test_abstract cfg lines true file_name missing = Ok (lines, missing').
Proof.
  rewrite test_abstract_fold. case_match; [by eexists|].
  eexists. cbv zeta. by rewrite abstract_run_noop.
Qed.

(** The line with the tag has the tag. *)
Lemma has_abstract_tag_inserted (pre post : list str) :
  has_abstract_tag cfg (pre ++ (__abstract_tag__ cfg ++ LF) :: post) = true.
Proof.
  unfold has_abstract_tag. rewrite existsb_app. simpl.
  assert (contains (__abstract_tag__ cfg ++ LF) (__abstract_tag__ cfg) = true)
    as -> by (apply StrFacts.contains_true; by exists [], LF).
  by rewrite orb_true_r.
Qed.

End AbstractOutcomes.

(** * [test_additional_resources]: the output line by line *)

Section Resources.

Variable cfg : config.
Variable noop : bool.

Lemma resources_body_step (lines : list str) (st : resources_state) (line : str) :
  lines !! r_line_no st = Some line →
  resources_body cfg lines noop st
  = Ok {| r_line_no := S (r_line_no st);
          r_processed_lines :=
            r_processed_lines st ++ resources_chunk cfg noop lines (r_line_no st) line |}.
Proof.
  intros Hline. pose proof (lookup_lt_Some _ _ _ Hline) as Hlt.
  unfold resources_body, resources_chunk, needs_resource_tag, getitem.
  rewrite Hline. simpl.
  destruct (is_resources_heading line); simpl; [|done].
  case_bool_decide; simpl; [|done].
  destruct (lookup_lt_is_Some_2 lines (r_line_no st - 1)) as [previous ->];
    [lia|]. simpl.
  destruct (eqb (strip previous) (__resource_tag__ cfg)); simpl; [done|].
  destruct noop; simpl; [done|]. by rewrite <-(assoc_L (++)).
Qed.

(** The loop of [test_additional_resources] ends, and its output is the
    chunks of the lines, in order. *)
Lemma test_additional_resources_chunks (lines : list str) :
  test_additional_resources cfg lines noop
  = Ok (mjoin (imap (resources_chunk cfg noop lines) lines)).
Proof.
  unfold test_additional_resources.
  set (inv := λ k st,
         r_line_no st = k ∧
         r_processed_lines st = mjoin (imap (resources_chunk cfg noop lines) (take k lines))).
  assert (∀ k s, inv k s → k < length lines →
            ∃ s', resources_body cfg lines noop s = Ok s' ∧ inv (k + 1) s')
    as Hbody.
  { intros k s [Hk Hout] Hlt.
    destruct (lookup_lt_is_Some_2 lines k Hlt) as [line Hline].
    eexists. split; [apply resources_body_step; by rewrite Hk|].
    split; simpl; [lia|].
    rewrite Nat.add_1_r. erewrite take_S_r by done.
    rewrite imap_app, join_app, Hout, Hk, length_take_le by lia. simpl.
    by rewrite Nat.add_0_r, app_nil_r. }
  assert (∀ k s, inv k s →
            bool_decide (r_line_no s < length lines) = bool_decide (k < length lines))
    as Hcond by (by intros k s [<- _]).
  destruct (while_count (length lines) _ _ inv Hcond Hbody (length lines) 0
              {| r_line_no := 0; r_processed_lines := [] |})
    as (s' & -> & _ & Hout); [done | lia | lia |].
  simpl. by rewrite Hout, firstn_all.
Qed.

End Resources.

(** * [test_syntax_updates]: the output line by line *)

Section Syntax.

Variable noop : bool.

Lemma syntax_body_step (st : syntax_state) (line : str) :
  s_lines st !! s_line_no st = Some line →
  syntax_body noop st
  = Ok {| s_lines := <[s_line_no st := syntax_line noop line]> (s_lines st);
          s_line_no := S (s_line_no st);
          s_processed_lines := s_processed_lines st ++ [syntax_line noop line] |}.
Proof.
  intros Hline. pose proof (lookup_lt_Some _ _ _ Hline) as Hlt.
  unfold syntax_body, syntax_line, getitem. rewrite Hline. simpl.
  destruct (contains (strip line) old_attribute), noop; simpl;
    rewrite ?Hline, ?list_lookup_insert_eq by done; simpl;
    by rewrite ?(list_insert_id _ _ _ Hline).
Qed.

(** The loop of [test_syntax_updates] ends; every line has been through
    [syntax_line], in the list and in the output. *)
Lemma test_syntax_updates_lines (lines : list str) :
  test_syntax_updates lines noop = Ok (syntax_line noop <$> lines).
Proof.
  unfold test_syntax_updates.
  set (inv := λ k st,
         s_line_no st = k ∧
         s_lines st = (syntax_line noop <$> take k lines) ++ drop k lines ∧
         s_processed_lines st = syntax_line noop <$> take k lines).
  assert (∀ k s, inv k s → k < length lines →
            ∃ s', syntax_body noop s = Ok s' ∧ inv (k + 1) s')
    as Hbody.
  { intros k s (Hk & Hlines & Hout) Hlt.
    destruct (lookup_lt_is_Some_2 lines k Hlt) as [line Hline].
    assert (length (syntax_line noop <$> take k lines) = k) as Hlen
      by (rewrite length_fmap, length_take_le; lia).
    assert (s_lines s !! s_line_no s = Some line) as Hs.
    { rewrite Hlines, Hk, lookup_app_r, Hlen, Nat.sub_diag by lia.
      by rewrite lookup_drop, Nat.add_0_r. }
    eexists. split; [by apply syntax_body_step|].
    unfold inv. simpl.
    rewrite Nat.add_1_r, (take_S_r _ _ _ Hline), fmap_app. simpl.
    split; [lia|]. split; [|by rewrite Hout].
    rewrite Hlines, Hk, insert_app_r_alt, Hlen, Nat.sub_diag by lia.
    rewrite (drop_S _ _ _ Hline). simpl. by rewrite <-(assoc_L (++)). }
  assert (∀ k s, inv k s →
            bool_decide (s_line_no s < length lines) = bool_decide (k < length lines))
    as Hcond by (by intros k s [<- _]).
  destruct (while_count (length lines) _ _ inv Hcond Hbody (length lines) 0
              {| s_lines := lines; s_line_no := 0; s_processed_lines := [] |})
    as (s' & -> & _ & _ & Hout); [done | lia | lia |].
  simpl. by rewrite Hout, firstn_all.
Qed.

End Syntax.

(** * [str.replace] cuts the string at the occurrences it replaces *)

Section Replace.

Variable o : N.
Variable os new : str.
Let old : str := o :: os.

Lemma replace_cons (s : str) : replace s old new = replace_from old new 0 s.
Proof. done. Qed.

(** The rest of an occurrence is passed over. *)
Lemma replace_from_skip (pre s : str) :
  replace_from old new (length pre) (pre ++ s) = replace_from old new 0 s.
Proof. induction pre as [|c pre IH]; [by destruct s|done]. Qed.

Lemma replace_from_match (r : str) :
  replace_from old new 0 (old ++ r) = new ++ replace_from old new 0 r.
Proof.
  change (old ++ r) with (o :: (os ++ r)). cbn [replace_from].
  change (o :: os ++ r) with (old ++ r).
  rewrite StrFacts.startswith_app.
  replace (length old - 1) with (length os) by (simpl; lia).
  by rewrite replace_from_skip.
Qed.

Lemma replace_from_miss (c : N) (s : str) :
  startswith (c :: s) old = false →
  replace_from old new 0 (c :: s) = c :: replace_from old new 0 s.
Proof. intros Hmiss. cbn [replace_from]. by rewrite Hmiss. Qed.

Lemma join_head (sep p : str) (ps : list str) : ∃ rest, join sep (p :: ps) = p ++ rest.
Proof. destruct ps; [exists []; simpl; by rewrite app_nil_r|by eexists]. Qed.

Lemma join_cons_head (sep : str) (c : N) (p : str) (ps : list str) :
  join sep ((c :: p) :: ps) = c :: join sep (p :: ps).
Proof. by destruct ps. Qed.

(** The string is the pieces joined by [old], the result is the same
    pieces joined by [new], and no piece has an occurrence of [old]. *)
Lemma replace_from_pieces (s : str) :
  ∃ p ps,
    s = join old (p :: ps) ∧
    replace_from old new 0 s = join new (p :: ps) ∧
    Forall (λ x, contains x old = false) (p :: ps).
Proof.
  remember (length s) as n eqn:Hn. revert s Hn.
  induction (lt_wf n) as [n _ IH]. intros [|c t] ->.
  { exists [], []. repeat split. by repeat constructor. }
  destruct (startswith (c :: t) old) eqn:Hstart.
  - apply StrFacts.startswith_true in Hstart as [r Hr].
    destruct (IH (length r)) with (s := r) as (p & ps & Hjoin & Hrep & Hfree);
      [|done|].
    { rewrite Hr, length_app. simpl. lia. }
    exists [], (p :: ps). rewrite Hr, replace_from_match, Hrep.
    split; [by rewrite Hjoin at 1|]. split; [done|].
    by constructor.
  - destruct (IH (length t)) with (s := t) as (p & ps & Hjoin & Hrep & Hfree);
      [simpl; lia|done|].
    exists (c :: p), ps. rewrite !join_cons_head, replace_from_miss, Hrep by done.
    split; [by rewrite Hjoin at 1|]. split; [done|].
    inversion_clear Hfree as [|? ? Hp Hps]. constructor; [|done].
    apply StrFacts.contains_false_cons. split; [|done].
    destruct (startswith (c :: p) old) eqn:Hp'; [|done].
    destruct (join_head old p ps) as [rest Hrest].
    apply (StrFacts.startswith_weaken _ _ rest) in Hp'.
    change ((c :: p) ++ rest) with (c :: (p ++ rest)) in Hp'.
    rewrite <-Hrest, <-Hjoin in Hp'. congruence.
Qed.

End Replace.

(** * The properties of [test_abstract] *)

(** C2.  In a document without the abstract tag whose lines before index [k]
    are all lines to ignore and whose line at index [k] is neither a line to
    ignore nor a line that cannot open an abstract, [test_abstract] with
    [noop = False] returns the lines with one tag line put immediately
    before index [k], and does not record the file. *)
Theorem test_abstract_tags_first_prose_line (cfg : config)
    (lines : list str) (k : nat) (line file_name : str) (missing : list str) :
  has_abstract_tag cfg lines = false →
  forallb is_preamble (take k lines) = true →
  lines !! k = Some line →
  is_preamble line = false →
  is_unsuitable line = false →
  test_abstract cfg lines false file_name missing
  = Ok (take k lines ++ (__abstract_tag__ cfg ++ LF) :: drop k lines, missing).
Proof. apply test_abstract_prose. Qed.

(** The example of C2: a title, an empty line and a sentence. *)
Lemma test_abstract_tags_first_prose_line_example :
  test_abstract default_config
    [py "= Title" ++ LF; LF; py "This is the intro." ++ LF] false
    (py "/docs/intro.adoc") []
  = Ok ([py "= Title" ++ LF; LF;
         py "[role=" ++ DQUOTE ++ py "_abstract" ++ DQUOTE ++ py "]" ++ LF;
         py "This is the intro." ++ LF], []).
Proof.
  apply (test_abstract_tags_first_prose_line default_config
           [py "= Title" ++ LF; LF; py "This is the intro." ++ LF] 2
           (py "This is the intro." ++ LF)); reflexivity.
Defined.

(** C3.  In a document without the abstract tag whose first line that is not
    ignored starts, once stripped, with one of [|], [*], [include], [.],
    [test_abstract] returns the lines unchanged and appends the file name to
    the list of files missing an abstract, in a dry run and in a normal run. *)
Theorem test_abstract_records_unsuitable_start (cfg : config)
    (lines : list str) (k : nat) (line file_name : str) (missing : list str)
    (noop : bool) :
  has_abstract_tag cfg lines = false →
  forallb is_preamble (take k lines) = true →
  lines !! k = Some line →
  is_preamble line = false →
  is_unsuitable line = true →
  test_abstract cfg lines noop file_name missing
  = Ok (lines, missing ++ [file_name]).
Proof. apply test_abstract_unsuitable. Qed.

(** The example of C3: an anchor followed by a list item. *)
Lemma test_abstract_records_unsuitable_start_example :
  test_abstract default_config
    [py "[id=" ++ DQUOTE ++ py "x" ++ DQUOTE ++ py "]" ++ LF;
     py "* first item" ++ LF] false (py "/docs/list.adoc") []
  = Ok ([py "[id=" ++ DQUOTE ++ py "x" ++ DQUOTE ++ py "]" ++ LF;
         py "* first item" ++ LF], [py "/docs/list.adoc"]).
Proof.
  apply (test_abstract_records_unsuitable_start default_config
           [py "[id=" ++ DQUOTE ++ py "x" ++ DQUOTE ++ py "]" ++ LF;
            py "* first item" ++ LF] 1 (py "* first item" ++ LF)
           (py "/docs/list.adoc") [] false); reflexivity.
Defined.

(** C5.  A document that has the abstract tag in one of its lines is
    returned as it is and nothing is recorded; and the lines [test_abstract]
    returns with [noop = False] are returned unchanged by a second call, which
    leaves the same files in the list of files missing an abstract. *)
Theorem test_abstract_idempotent (cfg : config) (lines : list str)
    (file_name : str) (missing : list str) :
  (has_abstract_tag cfg lines = true →
   ∀ noop, test_abstract cfg lines noop file_name missing = Ok (lines, missing))
  ∧
  ∃ out missing',
    test_abstract cfg lines false file_name missing = Ok (out, missing') ∧
    ∃ missing'',
      test_abstract cfg out false file_name missing' = Ok (out, missing'') ∧
      ∀ f, f ∈ missing'' ↔ f ∈ missing'.
Proof.
  split; [intros Htag noop; by apply test_abstract_tagged|].
  destruct (has_abstract_tag cfg lines) eqn:Htag.
  { exists lines, missing. split; [by apply test_abstract_tagged|].
    exists missing. split; [by apply test_abstract_tagged|done]. }
  destruct (first_content_line lines) as [Hall|(k & line & Hpre & Hk & Hline)].
  { exists lines, missing. split; [by apply test_abstract_all_preamble|].
    exists missing. split; [by apply test_abstract_all_preamble|done]. }
  destruct (is_unsuitable line) eqn:Hbad.
  - exists lines, (missing ++ [file_name]).
    split; [by eapply test_abstract_unsuitable|].
    exists ((missing ++ [file_name]) ++ [file_name]).
    split; [by eapply test_abstract_unsuitable|].
    intros f. rewrite !elem_of_app. tauto.
  - exists (take k lines ++ (__abstract_tag__ cfg ++ LF) :: drop k lines), missing.
    split; [by eapply test_abstract_prose|].
    exists missing. split; [|done].
    apply test_abstract_tagged, has_abstract_tag_inserted.
Qed.

(** A tagged document, and a second call on the output of a first. *)
Lemma test_abstract_idempotent_example :
  test_abstract default_config
    [py "= Title" ++ LF; __abstract_tag__ default_config ++ LF; py "Intro." ++ LF]
    false (py "/docs/a.adoc") []
  = Ok ([py "= Title" ++ LF; __abstract_tag__ default_config ++ LF;
         py "Intro." ++ LF], []).
Proof.
  apply (proj1 (test_abstract_idempotent default_config
                  [py "= Title" ++ LF; __abstract_tag__ default_config ++ LF;
                   py "Intro." ++ LF] (py "/docs/a.adoc") [])).
  reflexivity.
Defined.

(** C6.  A document without the abstract tag that has no line, or only lines
    to ignore, is returned unchanged and is not recorded, in a dry run and in
    a normal run. *)
Theorem test_abstract_all_preamble_untouched (cfg : config) (lines : list str)
    (file_name : str) (missing : list str) (noop : bool) :
  has_abstract_tag cfg lines = false →
  forallb is_preamble lines = true →
  test_abstract cfg lines noop file_name missing = Ok (lines, missing).
Proof. apply test_abstract_all_preamble. Qed.

(** The empty document, and a document of a title and an empty line. *)
Lemma test_abstract_all_preamble_untouched_example :
  test_abstract default_config [] false (py "/docs/empty.adoc") [] = Ok ([], [])
  ∧ test_abstract default_config [py "= Title" ++ LF; LF] true
      (py "/docs/title.adoc") []
    = Ok ([py "= Title" ++ LF; LF], []).
Proof.
  split.
  - apply (test_abstract_all_preamble_untouched default_config []
             (py "/docs/empty.adoc") [] false); reflexivity.
  - apply (test_abstract_all_preamble_untouched default_config
             [py "= Title" ++ LF; LF] (py "/docs/title.adoc") [] true);
      reflexivity.
Defined.

(** * Dry runs *)

Lemma join_singletons {A : Type} (f : nat → A → list A) (l : list A) :
  (∀ i x, f i x = [x]) → mjoin (imap f l) = l.
Proof.
  revert f. induction l as [|x l IH]; intros f Hf; [done|].
  rewrite imap_cons. simpl. rewrite Hf, IH; [done|]. intros i y. apply Hf.
Qed.

(** A dry run of [test_additional_resources] returns the lines it was given. *)
Lemma test_additional_resources_noop (cfg : config) (lines : list str) :
  test_additional_resources cfg lines true = Ok lines.
Proof.
  rewrite test_additional_resources_chunks. f_equal.
  apply join_singletons. intros i line.
  unfold resources_chunk. by rewrite andb_false_r.
Qed.

(** A dry run of [test_syntax_updates] returns the lines it was given. *)
Lemma test_syntax_updates_noop (lines : list str) :
  test_syntax_updates lines true = Ok lines.
Proof.
  rewrite test_syntax_updates_lines. f_equal.
  rewrite <-(list_fmap_id lines) at 2. apply list_fmap_ext.
  intros i line _. unfold syntax_line. by rewrite andb_false_r.
Qed.

(** The three transformers always return. *)
Lemma transform_total (cfg : config) (lines : list str) (noop : bool)
    (file_name : str) (missing : list str) :
  ∃ lines' missing', transform cfg lines noop file_name missing = Ok (lines', missing').
Proof.
  unfold transform. rewrite test_abstract_fold.
  match goal with |- context [Ok (if ?b then ?x else ?y)] =>
    destruct (if b then x else y) as [lines1 missing1] end.
  cbn [mbind result_bind]. rewrite test_additional_resources_chunks.
  cbn [mbind result_bind]. rewrite test_syntax_updates_lines. by eexists _, _.
Qed.

(** In a dry run the three transformers return the lines they were given. *)
Lemma transform_noop_lines (cfg : config) (lines : list str)
    (file_name : str) (missing : list str) :
  ∃ missing', transform cfg lines true file_name missing = Ok (lines, missing').
Proof.
  unfold transform.
  destruct (test_abstract_noop_lines cfg file_name lines missing) as [missing' ->].
  cbn [mbind result_bind]. rewrite test_additional_resources_noop.
  cbn [mbind result_bind]. rewrite test_syntax_updates_noop. by eexists.
Qed.

(** C1.  A dry run leaves the lines as they are, but its findings are not
    those of a normal run: on a paragraph followed by a list item the dry run
    records the file as missing an abstract, and the normal run tags the
    paragraph and records nothing. *)
Theorem dry_run_findings_differ :
  let lines := [py "Intro." ++ LF; py "* item" ++ LF] in
  let file_name := py "/docs/a.adoc" in
  transform default_config lines true file_name [] = Ok (lines, [file_name]) ∧
  transform default_config lines false file_name []
  = Ok ((__abstract_tag__ default_config ++ LF) :: lines, []).
Proof. split; reflexivity. Qed.

(** C4.  In a dry run the search is not complete after the line that is
    declared the abstract: a later line that cannot open an abstract still
    records the file. *)
Theorem dry_run_records_after_decision :
  let lines :=
    [py "= Title" ++ LF; py "Intro." ++ LF; py "More." ++ LF;
     py ".Procedure" ++ LF] in
  let file_name := py "/docs/a.adoc" in
  is_preamble (py "= Title" ++ LF) = true ∧
  is_preamble (py "Intro." ++ LF) = false ∧
  is_unsuitable (py "Intro." ++ LF) = false ∧
  is_unsuitable (py ".Procedure" ++ LF) = true ∧
  test_abstract default_config lines true file_name [] = Ok (lines, [file_name]) ∧
  test_abstract default_config lines false file_name []
  = Ok ([py "= Title" ++ LF; __abstract_tag__ default_config ++ LF;
         py "Intro." ++ LF; py "More." ++ LF; py ".Procedure" ++ LF], []).
Proof. repeat split; reflexivity. Qed.

(** * The properties of [test_additional_resources] *)

(** C7.  With [noop = False] the output is the input in which the tag line
    goes immediately before each line that needs it, every other line being
    copied; a line needs the tag when it is a heading of the section in one
    of the two spellings, its index is at least 2, and the line before it in
    the input, stripped, is not the tag.  The test looks at the input only,
    so each heading is judged by itself; a heading at index 0 or 1 never
    gets the tag. *)
Theorem test_additional_resources_tags_headings (cfg : config) (lines : list str) :
  test_additional_resources cfg lines false
  = Ok (mjoin (imap (λ i line,
                       if needs_resource_tag cfg lines i line
                       then [__resource_tag__ cfg ++ LF; line]
                       else [line]) lines))
  ∧ (∀ i line,
       needs_resource_tag cfg lines i line = true ↔
       is_resources_heading line = true ∧ 1 < i ∧
       ∃ previous, lines !! (i - 1) = Some previous ∧
                   strip previous ≠ __resource_tag__ cfg)
  ∧ (∀ line, needs_resource_tag cfg lines 0 line = false
             ∧ needs_resource_tag cfg lines 1 line = false).
Proof.
  split; [|split].
  - rewrite test_additional_resources_chunks. do 2 f_equal. apply imap_ext.
    intros i line _. unfold resources_chunk. by rewrite andb_true_r.
  - intros i line. unfold needs_resource_tag.
    rewrite !andb_true_iff, bool_decide_eq_true.
    destruct (lines !! (i - 1)) as [previous|]; simpl.
    + rewrite negb_true_iff, StrFacts.eqb_false. split.
      * intros [[Hhead Hi] Hprev]. eauto.
      * intros (Hhead & Hi & previous' & [= <-] & Hprev). eauto.
    + split; [intros [_ [=]]|]. by intros (_ & _ & previous & [=] & _).
  - intros line. unfold needs_resource_tag.
    rewrite !bool_decide_eq_false_2 by lia. by rewrite !andb_false_r.
Qed.

(** A heading at index 1 is left alone; a heading at index 2 gets the tag;
    a heading that follows the tag does not get a second one; and each of two
    headings in a row gets its own. *)
Example test_additional_resources_example :
  let tag := __resource_tag__ default_config ++ LF in
  let dot := py ".Additional resources" ++ LF in
  let sec := py "== Additional resources" ++ LF in
  test_additional_resources default_config [py "x" ++ LF; dot] false
  = Ok [py "x" ++ LF; dot]
  ∧ test_additional_resources default_config [py "x" ++ LF; LF; sec] false
    = Ok [py "x" ++ LF; LF; tag; sec]
  ∧ test_additional_resources default_config [py "x" ++ LF; LF; tag; dot] false
    = Ok [py "x" ++ LF; LF; tag; dot]
  ∧ test_additional_resources default_config [py "x" ++ LF; LF; dot; sec] false
    = Ok [py "x" ++ LF; LF; tag; dot; tag; sec].
Proof. repeat split; reflexivity. Qed.

(** * The properties of [test_syntax_updates] *)

Lemma old_attribute_ends :
  old_attribute = 58%N :: py "system-module-type" ++ [58%N].
Proof. reflexivity. Qed.

(** The test on the stripped line is the test on the line. *)
Lemma contains_strip_old_attribute (line : str) :
  contains (strip line) old_attribute = contains line old_attribute.
Proof. rewrite old_attribute_ends. by apply StrFacts.contains_strip. Qed.

Lemma syntax_line_replaced_every (line : str) :
  replaced_every old_attribute new_attribute line (syntax_line false line).
Proof.
  unfold syntax_line. rewrite contains_strip_old_attribute, andb_true_r.
  destruct (contains line old_attribute) eqn:Hold.
  - rewrite old_attribute_ends, replace_cons.
    destruct (replace_from_pieces 58%N (py "system-module-type" ++ [58%N])
                new_attribute line) as (p & ps & Hline & Hrep & Hfree).
    by exists (p :: ps).
  - exists [line]. repeat split. by repeat constructor.
Qed.

(** C8.  With [noop = False] every line of the output is the line of the
    input with every occurrence of [:system-module-type:] replaced by
    [:_module-type:] and the rest of the line kept; with [noop = True] the
    lines are returned unchanged. *)
Theorem test_syntax_updates_replaces_every (lines : list str) :
  test_syntax_updates lines true = Ok lines ∧
  ∃ lines',
    test_syntax_updates lines false = Ok lines' ∧
    Forall2 (replaced_every old_attribute new_attribute) lines lines'.
Proof.
  split; [apply test_syntax_updates_noop|].
  exists (syntax_line false <$> lines).
  split; [apply test_syntax_updates_lines|].
  apply Forall2_fmap_r, Forall2_same_length_lookup_2; [done|].
  intros i line line' Hline Hline'. rewrite Hline in Hline'.
  injection Hline' as <-. apply syntax_line_replaced_every.
Qed.

(** A line without the attribute is kept; the attribute is renamed where it
    stands, twice on a line if it is there twice; of two occurrences that
    share a colon the first is replaced. *)
Example test_syntax_updates_example :
  test_syntax_updates
    [py "= Title" ++ LF;
     py ":system-module-type: PROCEDURE" ++ LF;
     py "a :system-module-type: b :system-module-type: c" ++ LF;
     py ":system-module-type:system-module-type:" ++ LF] false
  = Ok [py "= Title" ++ LF;
        py ":_module-type: PROCEDURE" ++ LF;
        py "a :_module-type: b :_module-type: c" ++ LF;
        py ":_module-type:system-module-type:" ++ LF].
Proof. reflexivity. Qed.

(** * The properties of the directory walk *)

Section ProcessFacts.

Variable abspath : str → str.
Variable cfg : config.
Variable noop : bool.

(** The test on the file name, in words. *)
Lemma is_selected_true (file_name : str) :
  is_selected file_name = true ↔
  (∃ stem, file_name = stem ++ py "adoc") ∧ file_name ≠ py "master.adoc".
Proof.
  unfold is_selected.
  by rewrite andb_true_iff, negb_true_iff, StrFacts.endswith_true, StrFacts.eqb_false.
Qed.

(** A file is written exactly when its name passes the test. *)
Lemma process_file_written (dir_name : str) (file : str * list str) (rp : report) :
  ∃ rp',
    process_file abspath cfg noop dir_name file rp = Ok rp' ∧
    (written rp').*1
    = (written rp).*1 ++
      (if is_selected file.1 then [abspath dir_name ++ py "/" ++ file.1] else []).
Proof.
  destruct file as [file_name contents]. unfold process_file. cbn [fst].
  destruct (is_selected file_name).
  - destruct (transform_total cfg contents noop
                (abspath dir_name ++ py "/" ++ file_name)
                (files_missing_abstracts rp)) as (lines' & missing' & ->).
    eexists. split; [done|]. cbn [written]. by rewrite fmap_app.
  - exists rp. split; [done|]. by rewrite app_nil_r.
Qed.

(** The inner loop writes the files that pass the test, in order. *)
Lemma process_files_written (dir_name : str) (file_list : list (str * list str)) :
  ∀ rp, ∃ rp',
    for_each file_list (process_file abspath cfg noop dir_name) rp = Ok rp' ∧
    (written rp').*1
    = (written rp).*1 ++
      ((λ file, abspath dir_name ++ py "/" ++ file.1)
         <$> filter (λ file, is_selected file.1 = true) file_list).
Proof.
  induction file_list as [|file file_list IH]; intros rp; cbn [for_each].
  - exists rp. split; [done|]. by rewrite filter_nil, fmap_nil, app_nil_r.
  - destruct (process_file_written dir_name file rp) as (rp1 & -> & Hrp1).
    destruct (IH rp1) as (rp' & Hrp' & Hwritten).
    exists rp'. split; [done|]. rewrite Hwritten, Hrp1, filter_cons.
    case_decide as Hselected.
    + rewrite Hselected, fmap_cons. by rewrite <-(assoc_L (++)).
    + apply not_true_is_false in Hselected. by rewrite Hselected, app_nil_r.
Qed.

(** A directory whose path starts with [./.] is passed over. *)
Lemma process_directory_hidden (dir_name : str) (sub_dir_list : list str)
    (file_list : list (str * list str)) (rp : report) :
  startswith dir_name (py "./.") = true →
  process_directory abspath cfg noop (dir_name, sub_dir_list, file_list) rp = Ok rp.
Proof. intros Hhidden. unfold process_directory. by rewrite Hhidden. Qed.

End ProcessFacts.

(** The paths [os.walk] yields start with the path it is given. *)
Lemma os_walk_prefix : ∀ (d : directory) (top : str),
  Forall (λ entry, startswith entry.1.1 top = true) (os_walk top d).
Proof.
  fix IH 1. intros [files subdirs] top. simpl. constructor.
  { simpl. apply StrFacts.startswith_true. exists []. by rewrite app_nil_r. }
  induction subdirs as [|[name d'] subdirs IHsub]; [constructor|].
  apply Forall_app. split; [|exact IHsub].
  eapply Forall_impl; [apply IH|]. intros entry.
  rewrite !StrFacts.startswith_true. intros [r ->].
  exists (py "/" ++ name ++ r). by rewrite <-!(assoc_L (++)).
Qed.

(** The directories under a directory of the current directory whose name
    starts with a dot are all passed over. *)
Lemma process_skips_top_level_hidden (abspath : str → str) (cfg : config)
    (noop : bool) (name : str) (d : directory) :
  startswith name (py ".") = true →
  ∀ rp, for_each (os_walk (py "." ++ py "/" ++ name) d)
          (process_directory abspath cfg noop) rp = Ok rp.
Proof.
  intros Hname. pose proof (os_walk_prefix d (py "." ++ py "/" ++ name)) as Hwalk.
  induction Hwalk as [|[[dir_name sub_dir_list] file_list] walk Hdir _ IH];
    intros rp; [done|].
  cbn [for_each]. rewrite process_directory_hidden; [apply IH|].
  cbn [fst] in Hdir. apply StrFacts.startswith_true in Hdir as [r ->].
  apply StrFacts.startswith_true in Hname as [r' ->].
  apply StrFacts.startswith_true. exists (r' ++ r).
  by rewrite <-!(assoc_L (++)).
Qed.

(** C10.  In a directory that is not passed over, the files written are
    those of the listing whose name passes the test, and a name passes the
    test exactly when it ends with [adoc] and is not [master.adoc]: no dot is
    asked for before [adoc]. *)
Theorem process_selects_adoc_suffix (abspath : str → str) (cfg : config)
    (noop : bool) (dir_name : str) (sub_dir_list : list str)
    (file_list : list (str * list str)) (rp : report) :
  startswith dir_name (py "./.") = false →
  (∀ file_name,
     is_selected file_name = true ↔
     (∃ stem, file_name = stem ++ py "adoc") ∧ file_name ≠ py "master.adoc")
  ∧ ∃ rp',
      process_directory abspath cfg noop (dir_name, sub_dir_list, file_list) rp
      = Ok rp' ∧
      (written rp').*1
      = (written rp).*1 ++
        ((λ file, abspath dir_name ++ py "/" ++ file.1)
           <$> filter (λ file, is_selected file.1 = true) file_list).
Proof.
  intros Hvisited. split; [apply is_selected_true|].
  unfold process_directory. rewrite Hvisited. apply process_files_written.
Qed.

(** In the current directory, of [master.adoc], [notes-adoc], [readme.txt]
    and [intro.adoc] the second and the fourth are written. *)
Lemma process_selects_adoc_suffix_example :
  is_selected (py "notes-adoc") = true ∧
  ∃ rp',
    process_directory (λ d, py "/repo" ++ drop 1 d) default_config false
      (py ".", [],
       [(py "master.adoc", [py "include::intro.adoc[]" ++ LF]);
        (py "notes-adoc", [py "Notes." ++ LF]);
        (py "readme.txt", [py "Read me." ++ LF]);
        (py "intro.adoc", [py "= Intro" ++ LF])])
      {| written := []; files_missing_titles := []; files_missing_abstracts := [] |}
    = Ok rp' ∧
    (written rp').*1 = [py "/repo/notes-adoc"; py "/repo/intro.adoc"].
Proof.
  destruct (process_selects_adoc_suffix (λ d, py "/repo" ++ drop 1 d)
              default_config false (py ".") []
              [(py "master.adoc", [py "include::intro.adoc[]" ++ LF]);
               (py "notes-adoc", [py "Notes." ++ LF]);
               (py "readme.txt", [py "Read me." ++ LF]);
               (py "intro.adoc", [py "= Intro" ++ LF])]
              {| written := []; files_missing_titles := [];
                 files_missing_abstracts := [] |} eq_refl)
    as [Hselected (rp' & Hrun & Hwritten)].
  split.
  - apply Hselected. split; [by exists (py "notes-")|discriminate].
  - exists rp'. split; [exact Hrun|exact Hwritten].
Defined.

(** A run on a tree: [notes-adoc] is rewritten with the tag, [master.adoc]
    and [readme.txt] are left alone, and nothing of [.git] is opened. *)
Example process_example :
  process (λ d, py "/repo" ++ drop 1 d) default_config false
    (Directory
       [(py "master.adoc", [py "include::intro.adoc[]" ++ LF]);
        (py "notes-adoc", [py "Notes." ++ LF]);
        (py "readme.txt", [py "Read me." ++ LF])]
       [(py ".git", Directory [(py "x.adoc", [py "Intro." ++ LF])]
                      [(py "info", Directory [(py "y.adoc", [])] [])])]) []
  = Ok {| written :=
            [(py "/repo/notes-adoc",
              [__abstract_tag__ default_config ++ LF; py "Notes." ++ LF])];
          files_missing_titles := [py "/repo/notes-adoc"];
          files_missing_abstracts := [] |}.
Proof. reflexivity. Qed.

(** C9.  A directory whose name starts with a dot and that lies below a
    directory whose name does not is not passed over: its path does not
    start with [./.], and its file is rewritten. *)
Theorem process_enters_nested_hidden_directory :
  process (λ d, py "/repo" ++ drop 1 d) default_config false
    (Directory []
       [(py "docs",
         Directory []
           [(py ".hidden", Directory [(py "x.adoc", [py "Intro." ++ LF])] [])])])
    []
  = Ok {| written :=
            [(py "/repo/docs/.hidden/x.adoc",
              [__abstract_tag__ default_config ++ LF; py "Intro." ++ LF])];
          files_missing_titles := [py "/repo/docs/.hidden/x.adoc"];
          files_missing_abstracts := [] |}.
Proof. reflexivity. Qed.

(** * Further properties of [test_abstract] *)

(** The lines before the first line that is not ignored. *)
Lemma preamble_before (lines : list str) (k : nat) :
  (∀ j y, lines !! j = Some y → j < k → ¬ is_preamble y = false) →
  forallb is_preamble (take k lines) = true.
Proof.
  intros Hbefore. apply forallb_forall. intros y Hy%list_elem_of_In.
  apply list_elem_of_lookup in Hy as [j Hj].
  apply lookup_take_Some in Hj as [Hj Hlt].
  specialize (Hbefore j y Hj Hlt). by destruct (is_preamble y).
Qed.

(** The cases of a normal run of [test_abstract]. *)
Lemma test_abstract_normal_cases (cfg : config) (lines : list str)
    (file_name : str) (missing : list str) :
  test_abstract cfg lines false file_name missing
  = Ok (if has_abstract_tag cfg lines then (lines, missing)
        else
          match list_find (λ line, is_preamble line = false) lines with
          | None => (lines, missing)
          | Some (k, line) =>
              if is_unsuitable line then (lines, missing ++ [file_name])
              else (take k lines ++ (__abstract_tag__ cfg ++ LF) :: drop k lines,
                    missing)
          end).
Proof.
  destruct (has_abstract_tag cfg lines) eqn:Htag;
    [by apply test_abstract_tagged|].
  destruct (list_find _ lines) as [[k line]|] eqn:Hfind.
  - apply list_find_Some in Hfind as (Hk & Hline & Hbefore).
    apply preamble_before in Hbefore.
    destruct (is_unsuitable line) eqn:Hbad.
    + by eapply test_abstract_unsuitable.
    + by eapply test_abstract_prose.
  - apply list_find_None in Hfind. apply test_abstract_all_preamble; [done|].
    apply forallb_forall. intros y Hy%list_elem_of_In.
    rewrite Forall_forall in Hfind. specialize (Hfind y Hy).
    by destruct (is_preamble y).
Qed.

(** A normal run of [test_abstract], case by case.  A document that has the
    tag, or has only lines to ignore, is returned as it is.  Otherwise the
    first line that is not ignored decides: if it cannot open an abstract the
    file is recorded and the lines are returned as they are, and if it can the
    tag line goes before it and nothing is recorded. *)
Theorem test_abstract_normal_run (cfg : config) (lines : list str)
    (file_name : str) (missing : list str) :
  test_abstract cfg lines false file_name missing
  = Ok (if has_abstract_tag cfg lines then (lines, missing)
        else
          match list_find (λ line, is_preamble line = false) lines with
          | None => (lines, missing)
          | Some (k, line) =>
              if is_unsuitable line then (lines, missing ++ [file_name])
              else (take k lines ++ (__abstract_tag__ cfg ++ LF) :: drop k lines,
                    missing)
          end).
Proof. apply test_abstract_normal_cases. Qed.

(** The loop of a dry run from any state: the lines are copied, and the
    file is recorded once if the search is not complete and some line is not
    ignored and cannot open an abstract. *)
Lemma abstract_run_dry (cfg : config) (file_name : str) (lines : list str) :
  ∀ n p h c m,
    foldl (abstract_step cfg true file_name)
      {| line_no := n; processed_lines := p; has_abstract := h;
         abstract_search_complete := c; __files_missing_abstracts__ := m |} lines
    = {| line_no := n + length lines; processed_lines := p ++ lines;
         has_abstract := h;
         abstract_search_complete := c || existsb is_unsuitable_content lines;
         __files_missing_abstracts__ :=
           if negb c && existsb is_unsuitable_content lines
           then m ++ [file_name] else m |}.
Proof.
  induction lines as [|line lines IH]; intros n p h c m.
  - simpl. by rewrite Nat.add_0_r, app_nil_r, orb_false_r, andb_false_r.
  - cbn [foldl existsb length]. unfold abstract_step at 2, abstract_decide,
      is_unsuitable_content at 1 3.
    destruct (is_preamble line), c, (is_unsuitable line), h;
      unfold next_line, append_line, record_missing;
      cbn -[existsb]; rewrite IH; cbn -[existsb];
      rewrite <-?(assoc_L (++)), ?orb_true_r, ?orb_false_r;
      (f_equal; lia).
Qed.

(** The result of a dry run of [test_abstract]. *)
Lemma test_abstract_dry_cases (cfg : config) (lines : list str)
    (file_name : str) (missing : list str) :
  test_abstract cfg lines true file_name missing
  = Ok (lines,
        if negb (has_abstract_tag cfg lines)
           && existsb is_unsuitable_content lines
        then missing ++ [file_name] else missing).
Proof.
  rewrite test_abstract_fold. fold (has_abstract_tag cfg lines).
  destruct (has_abstract_tag cfg lines); [done|].
  cbv zeta. by rewrite abstract_run_dry.
Qed.

(** A dry run of [test_abstract]: the lines are returned as they are, and
    the file is recorded exactly when the document has no tag and some line,
    wherever it stands, is not ignored and cannot open an abstract. *)
Theorem test_abstract_dry_run (cfg : config) (lines : list str)
    (file_name : str) (missing : list str) :
  test_abstract cfg lines true file_name missing
  = Ok (lines,
        if negb (has_abstract_tag cfg lines)
           && existsb is_unsuitable_content lines
        then missing ++ [file_name] else missing).
Proof. apply test_abstract_dry_cases. Qed.

(** A file that a normal run records as missing an abstract is recorded by
    a dry run on the same lines. *)
Theorem dry_run_records_what_normal_run_records (cfg : config)
    (lines out : list str) (file_name : str) (missing : list str) :
  test_abstract cfg lines false file_name missing
  = Ok (out, missing ++ [file_name]) →
  test_abstract cfg lines true file_name missing
  = Ok (lines, missing ++ [file_name]).
Proof.
  rewrite test_abstract_normal_cases, test_abstract_dry_cases.
  assert (missing ≠ missing ++ [file_name]) as Hlonger.
  { intros Heq. apply (f_equal length) in Heq.
    rewrite length_app in Heq. simpl in Heq. lia. }
  destruct (has_abstract_tag cfg lines); [by intros [= _ ?]|].
  destruct (list_find _ lines) as [[k line]|] eqn:Hfind; [|by intros [= _ ?]].
  destruct (is_unsuitable line) eqn:Hbad; [|by intros [= _ ?]].
  intros _. apply list_find_Some in Hfind as (Hk & Hline & _).
  assert (existsb is_unsuitable_content lines = true) as ->; [|done].
  apply existsb_exists. exists line. split.
  - apply list_elem_of_In, list_elem_of_lookup. eauto.
  - unfold is_unsuitable_content. by rewrite Hline, Hbad.
Qed.

(** An anchor followed by a list item is recorded in both modes. *)
Lemma dry_run_records_what_normal_run_records_example :
  test_abstract default_config
    [py "[id=" ++ DQUOTE ++ py "x" ++ DQUOTE ++ py "]" ++ LF;
     py "* first item" ++ LF] true (py "/docs/list.adoc") []
  = Ok ([py "[id=" ++ DQUOTE ++ py "x" ++ DQUOTE ++ py "]" ++ LF;
         py "* first item" ++ LF], [py "/docs/list.adoc"]).
Proof.
  apply (dry_run_records_what_normal_run_records default_config
           [py "[id=" ++ DQUOTE ++ py "x" ++ DQUOTE ++ py "]" ++ LF;
            py "* first item" ++ LF]
           [py "[id=" ++ DQUOTE ++ py "x" ++ DQUOTE ++ py "]" ++ LF;
            py "* first item" ++ LF] (py "/docs/list.adoc") []).
  reflexivity.
Defined.

(** * Further properties of [test_additional_resources] *)

Section ResourcesTwice.

Variable cfg : config.

(** From index 2 on the index plays no part. *)
Lemma resources_chunks_after (rest : list str) :
  ∀ (pre : list str) (previous : str),
    pre ≠ [] →
    mjoin (imap (λ i, resources_chunk cfg false (pre ++ previous :: rest)
                        (length pre + 1 + i)) rest)
    = resources_after cfg previous rest.
Proof.
  induction rest as [|line rest IH]; intros pre previous Hpre; [done|].
  rewrite imap_cons. cbn [mjoin list_join resources_after]. f_equal.
  - unfold resources_chunk, needs_resource_tag.
    replace (length pre + 1 + 0 - 1) with (length pre) by lia.
    rewrite list_lookup_middle by done.
    rewrite bool_decide_eq_true_2 by (destruct pre; simpl; [done|lia]).
    by rewrite andb_true_r, andb_true_r.
  - rewrite <-(IH (pre ++ [previous]) line) by (by destruct pre).
    f_equal. apply imap_ext. intros i x _. simpl.
    rewrite <-(assoc_L (++)), length_app. simpl. f_equal. lia.
Qed.

(** At index 0 and at index 1 the line is copied. *)
Lemma resources_chunk_early (lines : list str) (i : nat) (line : str) :
  i ≤ 1 → resources_chunk cfg false lines i line = [line].
Proof.
  intros Hi. unfold resources_chunk, needs_resource_tag.
  rewrite bool_decide_eq_false_2 by lia. by rewrite andb_false_r.
Qed.

(** The output for a document of two lines or more. *)
Lemma test_additional_resources_after (a b : str) (rest : list str) :
  test_additional_resources cfg (a :: b :: rest) false
  = Ok (a :: b :: resources_after cfg b rest).
Proof.
  rewrite test_additional_resources_chunks. f_equal.
  rewrite !imap_cons. cbn [mjoin list_join compose].
  rewrite !resources_chunk_early by lia.
  rewrite <-(resources_chunks_after rest [a] b) by done.
  cbn [app]. do 3 f_equal.
Qed.

Hypothesis tag_line_strips : strip (__resource_tag__ cfg ++ LF) = __resource_tag__ cfg.
Hypothesis tag_line_no_heading : is_resources_heading (__resource_tag__ cfg ++ LF) = false.

(** No line of the output asks for a second tag. *)
Lemma resources_after_twice (rest : list str) :
  ∀ previous,
    resources_after cfg previous (resources_after cfg previous rest)
    = resources_after cfg previous rest.
Proof.
  induction rest as [|line rest IH]; intros previous; [done|].
  cbn [resources_after].
  destruct (is_resources_heading line
            && negb (eqb (strip previous) (__resource_tag__ cfg))) eqn:Htag.
  - cbn [app resources_after]. rewrite tag_line_no_heading, tag_line_strips.
    apply andb_true_iff in Htag as [-> _].
    assert (eqb (__resource_tag__ cfg) (__resource_tag__ cfg) = true) as ->
      by (by apply StrFacts.eqb_true).
    cbn [andb negb app]. by rewrite IH.
  - cbn [app resources_after]. rewrite Htag. cbn [app]. by rewrite IH.
Qed.

(** A second call of [test_additional_resources] on the output of a first
    returns it unchanged, for a tag without spaces around it that is not
    itself a heading of the section. *)
Lemma test_additional_resources_twice (lines : list str) :
  ∃ out,
    test_additional_resources cfg lines false = Ok out ∧
    test_additional_resources cfg out false = Ok out.
Proof.
  destruct lines as [|a [|b rest]].
  - by exists [].
  - exists [a]. split; rewrite test_additional_resources_chunks; simpl;
      unfold resources_chunk, needs_resource_tag; simpl;
      by rewrite andb_false_r.
  - exists (a :: b :: resources_after cfg b rest).
    by rewrite !test_additional_resources_after, resources_after_twice.
Qed.

End ResourcesTwice.

(** With [noop = False], a second call of [test_additional_resources] on the
    output of a first returns it unchanged, provided the tag line, stripped,
    is the tag and is not itself a heading of the section, as is the case for
    the two pairs of tags of the script. *)
Theorem test_additional_resources_idempotent (cfg : config) (lines : list str) :
  strip (__resource_tag__ cfg ++ LF) = __resource_tag__ cfg →
  is_resources_heading (__resource_tag__ cfg ++ LF) = false →
  ∃ out,
    test_additional_resources cfg lines false = Ok out ∧
    test_additional_resources cfg out false = Ok out.
Proof. intros Hstrip Hheading. by apply test_additional_resources_twice. Qed.

(** The tags after [--alternate], on a section that needs the tag. *)
Lemma test_additional_resources_idempotent_example :
  ∃ out,
    test_additional_resources alternate_config
      [py "= Title" ++ LF; LF; py ".Additional resources" ++ LF;
       py "* link" ++ LF] false = Ok out ∧
    test_additional_resources alternate_config out false = Ok out.
Proof.
  apply (test_additional_resources_idempotent alternate_config
           [py "= Title" ++ LF; LF; py ".Additional resources" ++ LF;
            py "* link" ++ LF]); reflexivity.
Defined.

(** * Further properties of [test_syntax_updates] *)

(** [str.replace] returns a string without an occurrence as it is. *)
Lemma replace_from_absent (o : N) (os new s : str) :
  contains s (o :: os) = false → replace_from (o :: os) new 0 s = s.
Proof.
  induction s as [|c s IH]; [done|].
  intros [Hstart Hrest]%StrFacts.contains_false_cons.
  rewrite replace_from_miss by done. by rewrite IH.
Qed.

Lemma syntax_line_replace (line : str) :
  syntax_line false line = replace line old_attribute new_attribute.
Proof.
  unfold syntax_line. rewrite contains_strip_old_attribute, andb_true_r.
  destruct (contains line old_attribute) eqn:Hold; [done|].
  rewrite old_attribute_ends, replace_cons in *. by rewrite replace_from_absent.
Qed.

(** With [noop = False] the output of [test_syntax_updates] is [str.replace]
    applied to every line: the test on the stripped line that guards the
    replacement changes nothing. *)
Theorem test_syntax_updates_is_replace (lines : list str) :
  test_syntax_updates lines false
  = Ok ((λ line, replace line old_attribute new_attribute) <$> lines).
Proof.
  rewrite test_syntax_updates_lines. f_equal. apply list_fmap_ext.
  intros i line _. apply syntax_line_replace.
Qed.

(** The loop of [test_syntax_updates] assigns to the list it is given: when
    it ends, after one iteration per line, that list holds the lines that
    are returned. *)
Theorem test_syntax_updates_in_place (lines : list str) (noop : bool) :
  while (length lines) (λ st, bool_decide (s_line_no st < length lines))
    (syntax_body noop)
    {| s_lines := lines; s_line_no := 0; s_processed_lines := [] |}
  = Ok {| s_lines := syntax_line noop <$> lines;
          s_line_no := length lines;
          s_processed_lines := syntax_line noop <$> lines |}
  ∧ test_syntax_updates lines noop = Ok (syntax_line noop <$> lines).
Proof.
  split; [|apply test_syntax_updates_lines].
  set (inv := λ k st,
         s_line_no st = k ∧
         s_lines st = (syntax_line noop <$> take k lines) ++ drop k lines ∧
         s_processed_lines st = syntax_line noop <$> take k lines).
  assert (∀ k s, inv k s → k < length lines →
            ∃ s', syntax_body noop s = Ok s' ∧ inv (k + 1) s')
    as Hbody.
  { intros k s (Hk & Hlines & Hout) Hlt.
    destruct (lookup_lt_is_Some_2 lines k Hlt) as [line Hline].
    assert (length (syntax_line noop <$> take k lines) = k) as Hlen
      by (rewrite length_fmap, length_take_le; lia).
    assert (s_lines s !! s_line_no s = Some line) as Hs.
    { rewrite Hlines, Hk, lookup_app_r, Hlen, Nat.sub_diag by lia.
      by rewrite lookup_drop, Nat.add_0_r. }
    eexists. split; [by apply syntax_body_step|].
    unfold inv. simpl.
    rewrite Nat.add_1_r, (take_S_r _ _ _ Hline), fmap_app. simpl.
    split; [lia|]. split; [|by rewrite Hout].
    rewrite Hlines, Hk, insert_app_r_alt, Hlen, Nat.sub_diag by lia.
    rewrite (drop_S _ _ _ Hline). simpl. by rewrite <-(assoc_L (++)). }
  assert (∀ k s, inv k s →
            bool_decide (s_line_no s < length lines) = bool_decide (k < length lines))
    as Hcond by (by intros k s [<- _]).
  destruct (while_count (length lines) _ _ inv Hcond Hbody (length lines) 0
              {| s_lines := lines; s_line_no := 0; s_processed_lines := [] |})
    as ([l i o] & -> & Hi & Hl & Ho); [done | lia | lia |].
  simpl in *. subst i.
  by rewrite Hl, Ho, firstn_all, drop_all, app_nil_r.
Qed.

(** * Further properties of the directory walk *)

Section ProcessLog.

Variable abspath : str → str.
Variable cfg : config.
Variable noop : bool.

Context {L : Type}.
(** A list of the report to which a file that is opened adds [entries]. *)
Variable log : report → list L.
Variable entries : str * (str * list str) → list L.
Hypothesis file_log : ∀ dir_name file rp, ∃ rp',
  process_file abspath cfg noop dir_name file rp = Ok rp' ∧
  log rp' = log rp ++ (if is_selected file.1 then entries (dir_name, file) else []).

Lemma files_log (dir_name : str) (file_list : list (str * list str)) :
  ∀ rp, ∃ rp',
    for_each file_list (process_file abspath cfg noop dir_name) rp = Ok rp' ∧
    log rp' = log rp ++ (selected_files dir_name file_list ≫= entries).
Proof.
  unfold selected_files.
  induction file_list as [|file file_list IH]; intros rp; cbn [for_each].
  - exists rp. split; [done|]. by rewrite app_nil_r.
  - destruct (file_log dir_name file rp) as (rp1 & -> & Hrp1).
    destruct (IH rp1) as (rp' & Hrp' & Hlog).
    exists rp'. split; [done|].
    rewrite Hlog, Hrp1, bind_cons, bind_app, <-(assoc_L (++)).
    by destruct (is_selected file.1); rewrite ?bind_singleton.
Qed.

Lemma walk_log (walk : list (str * list str * list (str * list str))) :
  ∀ rp, ∃ rp',
    for_each walk (process_directory abspath cfg noop) rp = Ok rp' ∧
    log rp' = log rp ++ (visited_files walk ≫= entries).
Proof.
  unfold visited_files.
  induction walk as [|[[dir_name sub_dir_list] file_list] walk IH]; intros rp;
    cbn [for_each].
  - exists rp. split; [done|]. by rewrite app_nil_r.
  - rewrite bind_cons, bind_app. cbn [fst snd process_directory].
    destruct (startswith dir_name (py "./.")).
    + destruct (IH rp) as (rp' & Hrp' & Hlog). by exists rp'.
    + destruct (files_log dir_name file_list rp) as (rp1 & -> & Hrp1).
      destruct (IH rp1) as (rp' & Hrp' & Hlog).
      exists rp'. split; [done|]. by rewrite Hlog, Hrp1, <-(assoc_L (++)).
Qed.

End ProcessLog.

(** A file that is opened is reported as missing a title when none of its
    lines, stripped, starts with [= ]. *)
Lemma process_file_titles (abspath : str → str) (cfg : config) (noop : bool)
    (dir_name : str) (file : str * list str) (rp : report) :
  ∃ rp',
    process_file abspath cfg noop dir_name file rp = Ok rp' ∧
    files_missing_titles rp'
    = files_missing_titles rp ++
      (if is_selected file.1
       then (λ '(d, f), if has_title f.2 then []
                        else [abspath d ++ py "/" ++ f.1]) (dir_name, file)
       else []).
Proof.
  destruct file as [file_name contents]. unfold process_file. cbn [fst snd].
  destruct (is_selected file_name).
  - destruct (transform_total cfg contents noop
                (abspath dir_name ++ py "/" ++ file_name)
                (files_missing_abstracts rp)) as (lines' & missing' & ->).
    eexists. split; [done|]. cbn [files_missing_titles].
    destruct (has_title contents); [by rewrite app_nil_r|done].
  - exists rp. split; [done|]. by rewrite app_nil_r.
Qed.

(** In a dry run a file that is opened is written with its own lines. *)
Lemma process_file_dry_run (abspath : str → str) (cfg : config)
    (dir_name : str) (file : str * list str) (rp : report) :
  ∃ rp',
    process_file abspath cfg true dir_name file rp = Ok rp' ∧
    written rp'
    = written rp ++
      (if is_selected file.1
       then (λ '(d, f), [(abspath d ++ py "/" ++ f.1, f.2)]) (dir_name, file)
       else []).
Proof.
  destruct file as [file_name contents]. unfold process_file. cbn [fst snd].
  destruct (is_selected file_name).
  - destruct (transform_noop_lines cfg contents
                (abspath dir_name ++ py "/" ++ file_name)
                (files_missing_abstracts rp)) as (missing' & ->).
    by eexists.
  - exists rp. split; [done|]. by rewrite app_nil_r.
Qed.



(** In a dry run every file that is opened is written back with the lines
    that were read from it. *)
Theorem process_dry_run_writes_back (abspath : str → str) (cfg : config)
    (root : directory) (missing : list str) :
  ∃ rp,
    process abspath cfg true root missing = Ok rp ∧
    written rp
    = visited_files (os_walk (py ".") root)
        ≫= λ '(dir_name, file), [(abspath dir_name ++ py "/" ++ file.1, file.2)].
Proof.
  destruct (walk_log abspath cfg true written _
              (process_file_dry_run abspath cfg) (os_walk (py ".") root)
              {| written := []; files_missing_titles := [];
                 files_missing_abstracts := missing |}) as (rp & Hrun & Hlog).
  by exists rp.
Qed.

(** In both modes the files reported as missing a title are, in the order of
    the walk, the files that are opened and have no line that, stripped,
    starts with [= ]; the lines looked at are those read from the file. *)
Theorem process_reports_missing_titles (abspath : str → str) (cfg : config)
    (noop : bool) (root : directory) (missing : list str) :
  ∃ rp,
    process abspath cfg noop root missing = Ok rp ∧
    files_missing_titles rp
    = visited_files (os_walk (py ".") root)
        ≫= λ '(dir_name, file),
             if has_title file.2 then []
             else [abspath dir_name ++ py "/" ++ file.1].
Proof.
  destruct (walk_log abspath cfg noop files_missing_titles _
              (process_file_titles abspath cfg noop) (os_walk (py ".") root)
              {| written := []; files_missing_titles := [];
                 files_missing_abstracts := missing |}) as (rp & Hrun & Hlog).
  by exists rp.
Qed.

(** What a call of [test_abstract] leaves in the list of files missing an
    abstract. *)
Lemma test_abstract_missing (cfg : config) (lines : list str) (noop : bool)
    (file_name : str) (missing : list str) :
  ∃ lines',
    test_abstract cfg lines noop file_name missing
    = Ok (lines', if lacks_abstract cfg noop lines
                  then missing ++ [file_name] else missing).
Proof.
  unfold lacks_abstract. destruct noop.
  - rewrite test_abstract_dry_cases. by eexists.
  - rewrite test_abstract_normal_cases.
    destruct (has_abstract_tag cfg lines); [by eexists|].
    destruct (list_find _ lines) as [[k line]|]; [|by eexists].
    destruct (is_unsuitable line); by eexists.
Qed.

Lemma process_file_abstracts (abspath : str → str) (cfg : config) (noop : bool)
    (dir_name : str) (file : str * list str) (rp : report) :
  ∃ rp',
    process_file abspath cfg noop dir_name file rp = Ok rp' ∧
    files_missing_abstracts rp'
    = files_missing_abstracts rp ++
      (if is_selected file.1
       then (λ '(d, f), if lacks_abstract cfg noop f.2
                        then [abspath d ++ py "/" ++ f.1] else []) (dir_name, file)
       else []).
Proof.
  destruct file as [file_name contents]. unfold process_file. cbn [fst snd].
  destruct (is_selected file_name); [|exists rp; by rewrite app_nil_r].
  unfold transform.
  destruct (test_abstract_missing cfg contents noop
              (abspath dir_name ++ py "/" ++ file_name)
              (files_missing_abstracts rp)) as (lines1 & ->).
  cbn [mbind result_bind]. rewrite test_additional_resources_chunks.
  cbn [mbind result_bind]. rewrite test_syntax_updates_lines.
  eexists. split; [done|]. cbn [files_missing_abstracts mbind result_bind mret result_ret].
  destruct (lacks_abstract cfg noop contents); [done|by rewrite app_nil_r].
Qed.

(** The files a run adds to the list of files missing an abstract are, in
    the order of the walk, the files that are opened, have no line with the
    tag, and have a line that is not ignored and cannot open an abstract: in a
    normal run as the first line that is not ignored, in a dry run anywhere. *)
Theorem process_reports_missing_abstracts (abspath : str → str) (cfg : config)
    (noop : bool) (root : directory) (missing : list str) :
  ∃ rp,
    process abspath cfg noop root missing = Ok rp ∧
    files_missing_abstracts rp
    = missing ++
      (visited_files (os_walk (py ".") root)
         ≫= λ '(dir_name, file),
              if lacks_abstract cfg noop file.2
              then [abspath dir_name ++ py "/" ++ file.1] else []).
Proof.
  destruct (walk_log abspath cfg noop files_missing_abstracts _
              (process_file_abstracts abspath cfg noop) (os_walk (py ".") root)
              {| written := []; files_missing_titles := [];
                 files_missing_abstracts := missing |}) as (rp & Hrun & Hlog).
  by exists rp.
Qed.

(** The directories at or below a directory of the current directory whose
    name starts with a dot are passed over, whatever they hold. *)
Theorem process_passes_over_hidden_subtree (abspath : str → str) (cfg : config)
    (noop : bool) (name : str) (d : directory) (rp : report) :
  startswith name (py ".") = true →
  for_each (os_walk (py "." ++ py "/" ++ name) d)
    (process_directory abspath cfg noop) rp = Ok rp
  ∧ visited_files (os_walk (py "." ++ py "/" ++ name) d) = [].
Proof.
  intros Hname. split; [by apply process_skips_top_level_hidden|].
  pose proof (os_walk_prefix d (py "." ++ py "/" ++ name)) as Hwalk.
  unfold visited_files.
  induction Hwalk as [|entry walk Hdir _ IH]; [done|].
  rewrite bind_cons, IH, app_nil_r.
  assert (startswith entry.1.1 (py "./.") = true) as ->; [|done].
  apply StrFacts.startswith_true in Hdir as [r ->].
  apply StrFacts.startswith_true in Hname as [r' ->].
  apply StrFacts.startswith_true. exists (r' ++ r).
  by rewrite <-!(assoc_L (++)).
Qed.

(** The tree of [.git], with a file two levels down. *)
Lemma process_passes_over_hidden_subtree_example :
  let git :=
    Directory [(py "x.adoc", [py "Intro." ++ LF])]
      [(py "info", Directory [(py "y.adoc", [py "More." ++ LF])] [])] in
  let rp := {| written := []; files_missing_titles := [];
               files_missing_abstracts := [] |} in
  for_each (os_walk (py "." ++ py "/" ++ py ".git") git)
    (process_directory (λ d, py "/repo" ++ drop 1 d) default_config false) rp
  = Ok rp
  ∧ visited_files (os_walk (py "." ++ py "/" ++ py ".git") git) = [].
Proof.
  apply (process_passes_over_hidden_subtree (λ d, py "/repo" ++ drop 1 d)
           default_config false (py ".git")).
  reflexivity.
Defined.

(** * The command line *)

Lemma read_arguments_from (args : list str) :
  ∀ st,
    foldl read_argument st args
    = {| __no_op__ := __no_op__ st || bool_decide (py "--no-op" ∈ args);
         tags := if bool_decide (py "--alternate" ∈ args)
                 then alternate_config else tags st |}.
Proof.
  induction args as [|arg args IH]; intros [no_op cfg].
  - simpl. by rewrite orb_false_r.
  - cbn [foldl]. rewrite IH. unfold read_argument, eqb. cbn [__no_op__ tags].
    assert (∀ x : str, bool_decide (x ∈ arg :: args)
                       = bool_decide (arg = x) || bool_decide (x ∈ args)) as Hin.
    { intros x. apply eq_true_iff_eq.
      rewrite orb_true_iff, !bool_decide_eq_true, elem_of_cons.
      split; (intros [?|?]; [by left|by right]). }
    rewrite !Hin.
    destruct (bool_decide (arg = py "--no-op")),
             (bool_decide (arg = py "--alternate")),
             (bool_decide (py "--alternate" ∈ args));
      cbn [__no_op__ tags orb]; by rewrite ?orb_true_r.
Qed.

(** The command line sets the dry run when [--no-op] is among the arguments
    after the program name, and the second pair of tags when [--alternate]
    is; the order of the arguments, their repetition and any other argument
    change nothing. *)
Theorem read_arguments_flags (argv : list str) :
  read_arguments argv
  = {| __no_op__ := bool_decide (py "--no-op" ∈ drop 1 argv);
       tags := if bool_decide (py "--alternate" ∈ drop 1 argv)
               then alternate_config else default_config |}.
Proof. unfold read_arguments. by rewrite read_arguments_from. Qed.
